(** * SpaceX launch records dashboard: a model of [spacex-dash-app.py]

    The program is one Python module.  Its top level reads a CSV file into a
    pandas data frame, cleans it, derives the slider bounds and the list of
    launch sites, and registers two Dash callbacks, [get_pie_chart] and
    [get_scatter_chart], that filter the frame and hand the result to
    plotly express.

    The embedding follows the module statement by statement.  pandas and
    plotly are libraries outside the repository; the operations the module
    calls on them ([read_csv], [dropna], [max], [min], [unique], comparison
    of a column with a scalar, boolean indexing, [px.pie], [px.scatter]) are
    modelled below with the behaviour their documentation gives, on the four
    columns the module names.

    A number is held by its exact value, a rational ([Qc]); what kind of
    number it is decides how it is compared.  The payload column is an
    [int64] or a [float64] column, a bound of the slider is a Python [int]
    or [float], and a comparison between the two kinds is done in
    [float64], after the integer side is rounded to the nearest one. *)

From Stdlib Require Import ZArith QArith Qcanon.
From stdpp Require Import base decidable option list numbers strings gmap fin_maps.

Local Open Scope string_scope.
Local Open Scope list_scope.

(** ** Exceptions and results *)

Inductive exn : Type :=
  | FileNotFoundError
  | PermissionError
  | ParserError
  | KeyError (labels : list string)
  | ValueError (msg : string).

Inductive result (A : Type) : Type :=
  | Ok (a : A)
  | Raise (e : exn).
Arguments Ok {A} a.
Arguments Raise {A} e.

Definition is_ok {A} (r : result A) : bool :=
  match r with Ok _ => true | Raise _ => false end.

(** ** Data frames

    A row carries the four columns the module reads.  [None] is pandas'
    missing value (NaN).  [columns] lists the labels the frame has; every
    column access goes through [getcol], which raises [KeyError] for a label
    that is absent, so the field of an absent column is never read. *)

Record Row : Type := mkRow {
  Launch_Site : option string;
  Payload_Mass : option Qc;
  class : option Z;
  Booster_Version_Category : option string
}.

(** The type pandas gave the payload column: [int64] when every cell of the
    file is an integer, [float64] otherwise. *)
Inductive Dtype : Type := int64 | float64.

Record DataFrame : Type := mkFrame {
  columns : list string;
  payload_dtype : Dtype;
  rows : list Row
}.

(** A frame whose payload column is [float64]. *)
Definition mkDataFrame (cs : list string) (rs : list Row) : DataFrame :=
  mkFrame cs float64 rs.

(** The frame [df] with other rows: what indexing and cleaning return. *)
Definition with_rows (df : DataFrame) (rs : list Row) : DataFrame :=
  mkFrame (columns df) (payload_dtype df) rs.

(** A Python number: an [int], or a finite [float] given by its value. *)
Inductive Number : Type :=
  | PyInt (z : Z)
  | PyFloat (x : Qc).


Definition col_site : string := "Launch Site".
Definition col_payload : string := "Payload Mass (kg)".
Definition col_class : string := "class".
Definition col_booster : string := "Booster Version Category".

Global Instance Row_eq_dec : EqDecision Row.
Proof. solve_decision. Defined.

Global Instance Dtype_eq_dec : EqDecision Dtype.
Proof. solve_decision. Defined.

Global Instance DataFrame_eq_dec : EqDecision DataFrame.
Proof. solve_decision. Defined.

Definition has_column (df : DataFrame) (c : string) : bool :=
  bool_decide (c ∈ columns df).

(** [df[c]]: the label must exist. *)
Definition getcol {A} (df : DataFrame) (c : string) (field : Row → A)
  : result (list A) :=
  if has_column df c then Ok (field <$> rows df) else Raise (KeyError [c]).

(** The nearest [float64] to an integer, ties to even: what a cast of an
    [int64] or of a Python [int] to [float64] gives.  Integers up to [2^53]
    in magnitude are left as they are.  (No integer of the model is beyond
    the range of [float64].) *)
Definition round64 (z : Z) : Z :=
  let a := Z.abs z in
  let e := (Z.log2 a - 52)%Z in
  if (e <=? 0)%Z then z
  else
    let m := Z.shiftr a e in
    let r := (a - Z.shiftl m e)%Z in
    let half := Z.shiftl 1 (e - 1) in
    let m' := if (half <? r)%Z || ((r =? half)%Z && Z.odd m)
              then (m + 1)%Z else m in
    (Z.sgn z * Z.shiftl m' e)%Z.

Definition integer_of (q : Qc) : option Z :=
  if (Qden q =? 1)%positive then Some (Qnum q) else None.

(** A cell of an [int64] column cast to [float64]. *)
Definition as_float64 (q : Qc) : Qc :=
  match integer_of q with
  | Some z => Qc_of_Z (round64 z)
  | None => q
  end.

(** The two operands of a comparison between a cell [p] of a column of type
    [d] and a scalar [b], as numpy compares them: as they are when both are
    integers or both are floats, in [float64] when they differ. *)
Definition promote (d : Dtype) (p : Qc) (b : Number) : Qc * Qc :=
  match d, b with
  | int64, PyInt z => (p, Qc_of_Z z)
  | int64, PyFloat x => (as_float64 p, x)
  | float64, PyInt z => (p, Qc_of_Z (round64 z))
  | float64, PyFloat x => (p, x)
  end.

Definition cell_ge (d : Dtype) (p : Qc) (b : Number) : bool :=
  let '(p', b') := promote d p b in bool_decide (b' ≤ p')%Qc.

Definition cell_le (d : Dtype) (p : Qc) (b : Number) : bool :=
  let '(p', b') := promote d p b in bool_decide (p' ≤ b')%Qc.

(** [series >= x] and [series <= x] on the payload column: NaN compares
    false. *)
Definition ge_scalar (d : Dtype) (x : Number) (s : list (option Qc))
  : list bool :=
  (λ c, match c with Some p => cell_ge d p x | None => false end) <$> s.

Definition le_scalar (d : Dtype) (x : Number) (s : list (option Qc))
  : list bool :=
  (λ c, match c with Some p => cell_le d p x | None => false end) <$> s.

(** [series == x] on an object column: NaN equals nothing. *)
Definition eq_scalar (x : string) (s : list (option string)) : list bool :=
  (λ c, match c with Some v => bool_decide (v = x) | None => false end) <$> s.

(** [m1 & m2] *)
Definition mask_and (m1 m2 : list bool) : list bool := zip_with andb m1 m2.

(** [df[mask]]: the rows whose mask entry is [True], in frame order; a new
    frame, the indexed one is left as it is. *)
Fixpoint select (m : list bool) (rs : list Row) : list Row :=
  match m, rs with
  | b :: m', r :: rs' => if b then r :: select m' rs' else select m' rs'
  | _, _ => []
  end.

Definition getitem_mask (df : DataFrame) (m : list bool) : result DataFrame :=
  if bool_decide (length m = length (rows df))
  then Ok (with_rows df (select m (rows df)))
  else Raise (ValueError "Item wrong length").

(** [df.dropna(subset=...)]: every label of [subset] must exist (pandas
    raises [KeyError] with the missing ones); the rows kept are those with a
    value in each column of [subset]. *)
Definition isna (c : string) (r : Row) : bool :=
  if decide (c = col_site) then bool_decide (Launch_Site r = None)
  else if decide (c = col_payload) then bool_decide (Payload_Mass r = None)
  else if decide (c = col_class) then bool_decide (class r = None)
  else if decide (c = col_booster)
       then bool_decide (Booster_Version_Category r = None)
  else false.

Definition notna_all (subset : list string) (r : Row) : bool :=
  forallb (λ c, negb (isna c r)) subset.

Definition dropna (subset : list string) (df : DataFrame) : result DataFrame :=
  match filter (λ c, has_column df c = false) subset with
  | [] => Ok (with_rows df
                (filter (λ r, notna_all subset r = true) (rows df)))
  | missing => Raise (KeyError missing)
  end.

(** [series.max()] and [series.min()] skip NaN and give NaN on a series with
    no value. *)
Definition Qc_max (x y : Qc) : Qc := if decide (x ≤ y)%Qc then y else x.
Definition Qc_min (x y : Qc) : Qc := if decide (x ≤ y)%Qc then x else y.

Definition reduce_skipna (op : Qc → Qc → Qc) (s : list (option Qc)) : option Qc :=
  foldr (λ c acc,
           match c, acc with
           | Some p, Some q => Some (op p q)
           | Some p, None => Some p
           | None, _ => acc
           end) None s.

Definition series_max : list (option Qc) → option Qc := reduce_skipna Qc_max.
Definition series_min : list (option Qc) → option Qc := reduce_skipna Qc_min.

(** [series.unique()]: each value once, in order of first appearance. *)
Fixpoint unique_from {A} `{EqDecision A} (seen : list A) (s : list A) : list A :=
  match s with
  | [] => []
  | x :: s' =>
      if bool_decide (x ∈ seen) then unique_from seen s'
      else x :: unique_from (x :: seen) s'
  end.

Definition unique {A} `{EqDecision A} (s : list A) : list A := unique_from [] s.

(** ** Figures

    A figure records the call that built it: the frame handed to plotly
    express and the arguments.  plotly express refuses a column argument
    that is not a label of the frame.

    A scatter figure also holds what is drawn, its traces.  Given [color],
    plotly express groups the rows by the value of that column: one trace
    per value, in the order in which the values first appear, each with the
    rows of that value in frame order.  A row whose value is missing is in
    no group, so it is not drawn.  The module passes
    [color='Booster Version Category']. *)

Record Trace : Type := mkTrace {
  trace_name : string;
  trace_points : list Row
}.

Inductive Figure : Type :=
  | Pie (data_frame : DataFrame) (names title color : string)
        (color_discrete_map labels : list (Z * string))
  | Scatter (data_frame : DataFrame) (data : list Trace)
            (x y color title : string).

Definition figure_data (fig : Figure) : DataFrame :=
  match fig with
  | Pie df _ _ _ _ _ => df
  | Scatter df _ _ _ _ _ => df
  end.

Definition figure_traces (fig : Figure) : list Trace :=
  match fig with
  | Pie _ _ _ _ _ _ => []
  | Scatter _ data _ _ _ _ => data
  end.

(** The records a scatter figure draws, trace after trace. *)
Definition scatter_points (fig : Figure) : list Row :=
  mjoin (trace_points <$> figure_traces fig).

Definition group_by_booster (rs : list Row) : list Trace :=
  (λ k, mkTrace k (filter (λ r, Booster_Version_Category r = Some k) rs))
    <$> omap id (unique (Booster_Version_Category <$> rs)).

Definition px_check (df : DataFrame) (args : list string) : result unit :=
  match filter (λ c, has_column df c = false) args with
  | [] => Ok tt
  | _ => Raise (ValueError "not the name of a column in data_frame")
  end.

Definition px_pie (df : DataFrame) (names title color : string)
    (color_discrete_map labels : list (Z * string)) : result Figure :=
  match px_check df [names; color] with
  | Ok _ => Ok (Pie df names title color color_discrete_map labels)
  | Raise e => Raise e
  end.

Definition px_scatter (df : DataFrame) (x y color title : string)
  : result Figure :=
  match px_check df [x; y; color] with
  | Ok _ => Ok (Scatter df (group_by_booster (rows df)) x y color title)
  | Raise e => Raise e
  end.

(** A pie trace given [names] and no [values] draws one sector per distinct
    label, sized by the number of rows that carry it.  Both calls of the
    module pass [names='class']. *)
Definition count_label (k : option Z) (m : gmap (option Z) nat)
  : gmap (option Z) nat :=
  <[k := S (default 0 (m !! k))]> m.

Definition value_counts (s : list (option Z)) : gmap (option Z) nat :=
  foldr count_label ∅ s.

Definition pie_slices (fig : Figure) : gmap (option Z) nat :=
  value_counts (class <$> rows (figure_data fig)).

Definition total (m : gmap (option Z) nat) : nat :=
  map_fold (λ _ n acc, n + acc) 0 m.

(** ** Logging *)

Inductive Level : Type := DEBUG | INFO | ERROR.

Inductive Message : Type :=
  | CsvLoaded
  | ErrorLoadingCsv (e : exn)
  | DataCleaned (remaining : nat)
  | PayloadRange (lo hi : option Qc)
  | GeneratingPie (site : string)
  | GeneratingScatter (site : string) (payload_range : list Number).

Definition LogRecord : Type := Level * Message.

(** ** The module's state

    The names the top level binds and the callbacks read, and the log the
    [logging] calls write to. *)

Record Globals : Type := mkGlobals {
  spacex_df : DataFrame;
  max_payload : option Qc;
  min_payload : option Qc;
  launch_sites : list (option string);
  dropdown_options : list (option string * option string)
}.

Record World : Type := mkWorld {
  globals : Globals;
  log : list LogRecord
}.

(** State and exceptions: a computation runs in a state, returns a value or
    raises, and leaves a state behind either way. *)
Definition M (S A : Type) : Type := S → result A * S.

Definition ret {S A} (a : A) : M S A := λ s, (Ok a, s).

Definition bind {S A B} (c : M S A) (k : A → M S B) : M S B :=
  λ s, match c s with
       | (Ok a, s') => k a s'
       | (Raise e, s') => (Raise e, s')
       end.

Definition lift {S A} (r : result A) : M S A := λ s, (r, s).

Notation "x <~ c ;; k" := (bind c (λ x, k))
  (at level 100, c at next level, right associativity).
Notation "c ;;; k" := (bind c (λ _, k))
  (at level 100, right associativity).

Definition logging_top (lv : Level) (msg : Message) : M (list LogRecord) unit :=
  λ lg, (Ok tt, lg ++ [(lv, msg)]).

Definition logging (lv : Level) (msg : Message) : M World unit :=
  λ w, (Ok tt, mkWorld (globals w) (log w ++ [(lv, msg)])).

Definition read_global {A} (name : Globals → A) : M World A :=
  λ w, (Ok (name (globals w)), w).

(** ** The module top level *)

(** What [pd.read_csv("spacex_launch_dash.csv")] finds: no file, a file that
    cannot be opened, a file that is no CSV, or a table. *)
Inductive File : Type :=
  | Absent
  | Unreadable
  | Malformed
  | Csv (table : DataFrame).

Definition read_csv (f : File) : result DataFrame :=
  match f with
  | Absent => Raise FileNotFoundError
  | Unreadable => Raise PermissionError
  | Malformed => Raise ParserError
  | Csv table => Ok table
  end.

(** Lines 13-18: [try: ... except Exception as e: logging.error(...); raise]. *)
Definition load_csv (f : File) : M (list LogRecord) DataFrame :=
  match read_csv f with
  | Ok df => logging_top INFO CsvLoaded ;;; ret df
  | Raise e => logging_top ERROR (ErrorLoadingCsv e) ;;; lift (Raise e)
  end.

(** Lines 13-35, without the static layout. *)
Definition startup (f : File) : M (list LogRecord) Globals :=
  df0 <~ load_csv f ;;
  spacex_df <~ lift (dropna [col_payload; col_site; col_class] df0) ;;
  logging_top INFO (DataCleaned (length (rows spacex_df))) ;;;
  s_max <~ lift (getcol spacex_df col_payload Payload_Mass) ;;
  let max_payload := series_max s_max in
  s_min <~ lift (getcol spacex_df col_payload Payload_Mass) ;;
  let min_payload := series_min s_min in
  logging_top INFO (PayloadRange min_payload max_payload) ;;;
  s_site <~ lift (getcol spacex_df col_site Launch_Site) ;;
  let launch_sites := unique s_site in
  let dropdown_options :=
    (Some "All Sites", Some "ALL") :: ((λ site, (site, site)) <$> launch_sites) in
  ret (mkGlobals spacex_df max_payload min_payload launch_sites dropdown_options).

(** ** The callbacks *)

Definition color_map : list (Z * string) := [(0%Z, "red"); (1%Z, "green")].
Definition label_map : list (Z * string) := [(0%Z, "Failure"); (1%Z, "Success")].

(** Lines 79-99. *)
Definition get_pie_chart (entered_site : string) : M World Figure :=
  logging DEBUG (GeneratingPie entered_site) ;;;
  if bool_decide (entered_site = "ALL") then
    df <~ read_global spacex_df ;;
    fig <~ lift (px_pie df col_class "Total Launch Outcomes for All Sites"
                   col_class color_map label_map) ;;
    ret fig
  else
    df <~ read_global spacex_df ;;
    s <~ lift (getcol df col_site Launch_Site) ;;
    df_site <~ lift (getitem_mask df (eq_scalar entered_site s)) ;;
    fig <~ lift (px_pie df_site col_class
                   ("Total Launch Outcomes for " +:+ entered_site)
                   col_class color_map label_map) ;;
    ret fig.

(** [low, high = payload_range] *)
Definition unpack2 (payload_range : list Number)
  : result (Number * Number) :=
  match payload_range with
  | [low; high] => Ok (low, high)
  | [] | [_] => Raise (ValueError "not enough values to unpack (expected 2)")
  | _ => Raise (ValueError "too many values to unpack (expected 2)")
  end.

(** Lines 109-137. *)
Definition get_scatter_chart (selected_site : string)
    (payload_range : list Number) : M World Figure :=
  logging DEBUG (GeneratingScatter selected_site payload_range) ;;;
  bounds <~ lift (unpack2 payload_range) ;;
  let '(low, high) := bounds in
  df <~ read_global spacex_df ;;
  s_ge <~ lift (getcol df col_payload Payload_Mass) ;;
  s_le <~ lift (getcol df col_payload Payload_Mass) ;;
  filtered_df <~ lift (getitem_mask df
                         (mask_and (ge_scalar (payload_dtype df) low s_ge)
                            (le_scalar (payload_dtype df) high s_le))) ;;
  if bool_decide (selected_site = "ALL") then
    fig <~ lift (px_scatter filtered_df col_payload col_class col_booster
                   "Correlation Between Payload and Success for All Sites") ;;
    ret fig
  else
    s <~ lift (getcol filtered_df col_site Launch_Site) ;;
    site_df <~ lift (getitem_mask filtered_df (eq_scalar selected_site s)) ;;
    fig <~ lift (px_scatter site_df col_payload col_class col_booster
                   ("Correlation Between Payload and Success for "
                      +:+ selected_site)) ;;
    ret fig.

(** ** Serving

    [app.run] answers callback requests one after the other.  Dash turns an
    exception raised by a callback into an error response and keeps
    serving. *)

Inductive Request : Type :=
  | PieRequest (site : string)
  | ScatterRequest (site : string) (payload_range : list Number).

Definition Response : Type := result Figure.

Definition dispatch (rq : Request) : M World Figure :=
  match rq with
  | PieRequest site => get_pie_chart site
  | ScatterRequest site payload_range => get_scatter_chart site payload_range
  end.

Fixpoint app_run (rqs : list Request) (w : World) : list Response * World :=
  match rqs with
  | [] => ([], w)
  | rq :: rqs' =>
      let '(resp, w1) := dispatch rq w in
      let '(resps, w2) := app_run rqs' w1 in
      (resp :: resps, w2)
  end.

(** The whole process: the top level, then [app.run] if the top level did not
    raise. *)
Definition main (f : File) (rqs : list Request)
  : result (list Response) * list LogRecord :=
  match startup f [] with
  | (Ok g, lg) =>
      let '(resps, w) := app_run rqs (mkWorld g lg) in (Ok resps, log w)
  | (Raise e, lg) => (Raise e, lg)
  end.

(** ** A small data set *)

Definition kg (z : Z) : Qc := Qc_of_Z z.

Definition four_columns : list string :=
  [col_site; col_payload; col_class; col_booster].

Definition sample_rows : list Row :=
  [ mkRow (Some "CCAFS") (Some (kg 500)) (Some 0%Z) (Some "v1");
    mkRow (Some "CCAFS") (Some (kg 2500)) (Some 1%Z) (Some "v1");
    mkRow (Some "KSC") (Some (kg 3000)) (Some 1%Z) (Some "v2") ].

Definition sample_df : DataFrame := mkDataFrame four_columns sample_rows.

Definition sample_world : World :=
  mkWorld (mkGlobals sample_df (Some (kg 3000)) (Some (kg 500))
             [Some "CCAFS"; Some "KSC"]
             [(Some "All Sites", Some "ALL"); (Some "CCAFS", Some "CCAFS");
              (Some "KSC", Some "KSC")]) [].

(** A table with gaps: the second row has no payload mass, the fourth no
    class, the fifth no launch site; the last has no booster category, which
    cleaning does not look at. *)
Definition gappy_df : DataFrame :=
  mkDataFrame four_columns
    [ mkRow (Some "KSC") (Some (kg 3000)) (Some 1%Z) (Some "v2");
      mkRow (Some "CCAFS") None (Some 1%Z) (Some "v1");
      mkRow (Some "CCAFS") (Some (kg 500)) (Some 0%Z) (Some "v1");
      mkRow (Some "VAFB") (Some (kg 9600)) None (Some "v3");
      mkRow None (Some (kg 100)) (Some 0%Z) (Some "v1");
      mkRow (Some "KSC") (Some (kg 2500)) (Some 1%Z) None ].

(** The cleaned form of [gappy_df]: its last record has no booster
    category. *)
Definition cleaned_gappy_df : DataFrame :=
  mkDataFrame four_columns
    [ mkRow (Some "KSC") (Some (kg 3000)) (Some 1%Z) (Some "v2");
      mkRow (Some "CCAFS") (Some (kg 500)) (Some 0%Z) (Some "v1");
      mkRow (Some "KSC") (Some (kg 2500)) (Some 1%Z) None ].

(** An integer payload column with a payload just above [2^53]. *)
Definition heavy_df : DataFrame :=
  mkFrame four_columns int64
    [ mkRow (Some "A") (Some (kg (2 ^ 53 + 1))) (Some 1%Z) (Some "v1");
      mkRow (Some "B") (Some (kg 5)) (Some 0%Z) (Some "v1") ].

(** ** Vocabulary of the specification *)

Definition has_columns (df : DataFrame) (cs : list string) : bool :=
  forallb (has_column df) cs.

(** A data set has the four columns of the input file. *)
Definition Dataset (df : DataFrame) : bool := has_columns df four_columns.

(** [low ≤ payloadMassKg ≤ high] *)
Definition in_range (low high : Qc) (r : Row) : Prop :=
  match Payload_Mass r with
  | Some p => (low ≤ p)%Qc ∧ (p ≤ high)%Qc
  | None => False
  end.

(** [site == "ALL"] or [launchSite == site] *)
Definition at_site (site : string) (r : Row) : Prop :=
  site = "ALL" ∨ Launch_Site r = Some site.

(** The records the two payload masks of [get_scatter_chart] keep on a
    column of type [d]. *)
Definition kept (d : Dtype) (low high : Number) (r : Row) : Prop :=
  match Payload_Mass r with
  | Some p => cell_ge d p low = true ∧ cell_le d p high = true
  | None => False
  end.

Global Instance kept_dec d low high r : Decision (kept d low high r).
Proof. unfold kept. destruct (Payload_Mass r); apply _. Defined.




Global Instance in_range_dec low high r : Decision (in_range low high r).
Proof. unfold in_range. destruct (Payload_Mass r); apply _. Defined.

Global Instance at_site_dec site r : Decision (at_site site r).
Proof. unfold at_site. apply _. Defined.

Definition distinctSites (df : DataFrame) : list (option string) :=
  unique (Launch_Site <$> rows df).

(** A row with a value in each of the three cleaned columns. *)
Definition complete (r : Row) : Prop :=
  is_Some (Payload_Mass r) ∧ is_Some (Launch_Site r) ∧ is_Some (class r).

Global Instance complete_dec (r : Row) : Decision (complete r).
Proof. unfold complete. apply _. Defined.

(** Position of the first occurrence of [x] in [l]. *)
Fixpoint first_index {A} `{EqDecision A} (x : A) (l : list A) : option nat :=
  match l with
  | [] => None
  | y :: l' => if decide (x = y) then Some 0 else S <$> first_index x l'
  end.

(** A computation that leaves the module's globals as it found them,
    whether it returns or raises. *)
Definition frame_ok {A} (c : M World A) : Prop :=
  ∀ w, globals (c w).2 = globals w.

(** Two states that hold the same data set. *)
Definition same_dataset (w1 w2 : World) : Prop :=
  spacex_df (globals w1) = spacex_df (globals w2).

(** A computation whose outcome is a function of the data set alone. *)
Definition dataset_determined {A} (c : M World A) : Prop :=
  ∀ w1 w2, same_dataset w1 w2 →
    (c w1).1 = (c w2).1 ∧ same_dataset (c w1).2 (c w2).2.

(** What startup needs of the file. *)
Definition cleaned_columns : list string := [col_payload; col_site; col_class].

Definition loadable (f : File) : bool :=
  match f with
  | Csv table => has_columns table cleaned_columns
  | _ => false
  end.

(** The file the specification accepts: readable, with the four columns. *)
Definition well_formed (f : File) : bool :=
  match f with
  | Csv table => Dataset table
  | _ => false
  end.

(** The sample table without its booster column. *)
Definition no_booster_df : DataFrame :=
  mkDataFrame [col_site; col_payload; col_class] sample_rows.

(** What a call shows: the slices of the pie, the records of the scatter. *)
Definition pie_of (site : string) (w : World) : list (option Z * nat) :=
  match (get_pie_chart site w).1 with
  | Ok fig => map_to_list (pie_slices fig)
  | Raise _ => []
  end.

Definition scatter_of (site : string) (payload_range : list Number) (w : World)
  : result (list Row) :=
  match (get_scatter_chart site payload_range w).1 with
  | Ok fig => Ok (rows (figure_data fig))
  | Raise e => Raise e
  end.

(** ** The layout's controls and what a request leaves in the log *)

(** Lines 43-49 and 59-66: the dropdown starts at ['ALL'], the slider at
    [[min_payload, max_payload]]. *)
Definition default_site : string := "ALL".


(** The line a callback logs when it is entered. *)
Definition debug_record (rq : Request) : LogRecord :=
  match rq with
  | PieRequest site => (DEBUG, GeneratingPie site)
  | ScatterRequest site payload_range =>
      (DEBUG, GeneratingScatter site payload_range)
  end.

(** The number of records a pie chart counts, and the size of one slice;
    0 when the callback raises or the slice is absent. *)
Definition pie_total (site : string) (w : World) : nat :=
  match (get_pie_chart site w).1 with
  | Ok fig => total (pie_slices fig)
  | Raise _ => 0
  end.

Definition pie_slice (site : string) (k : option Z) (w : World) : nat :=
  match (get_pie_chart site w).1 with
  | Ok fig => default 0 (pie_slices fig !! k)
  | Raise _ => 0
  end.

(** The launch sites of a frame as the strings the dropdown offers. *)
Definition site_names (df : DataFrame) : list string :=
  omap id (distinctSites df).

(** A computation that leaves the whole state, log included, as it found
    it. *)
Definition silent {A} (c : M World A) : Prop := ∀ w, (c w).2 = w.

(** ** The page

    The layout (lines 38-72) declares two controls and two graphs, and the
    decorators (lines 75-78 and 102-108) tie them to the callbacks:
    [get_pie_chart] has the dropdown's value as its input and the pie
    graph's figure as its output; [get_scatter_chart] has the dropdown's and
    the slider's values as inputs and the scatter graph's figure as output.
    Dash calls every callback once when the page opens, with the values of
    the layout, and again whenever one of its inputs changes, with the
    current values of all its inputs; the value returned becomes the
    output, and when the callback raises the output stays as it was. *)

Record Page : Type := mkPage {
  site_dropdown : string;
  payload_slider : list Number;
  success_pie_chart : option Figure;
  success_payload_scatter_chart : option Figure
}.

Inductive Event : Type :=
  | SelectSite (site : string)
  | MoveSlider (low high : Number).

Definition set_output (old : option Figure) (r : result Figure)
  : option Figure :=
  match r with
  | Ok fig => Some fig
  | Raise _ => old
  end.

Definition update_pie (p : Page) (w : World) : Page * World :=
  let '(r, w') := get_pie_chart (site_dropdown p) w in
  (mkPage (site_dropdown p) (payload_slider p)
     (set_output (success_pie_chart p) r)
     (success_payload_scatter_chart p), w').

Definition update_scatter (p : Page) (w : World) : Page * World :=
  let '(r, w') := get_scatter_chart (site_dropdown p) (payload_slider p) w in
  (mkPage (site_dropdown p) (payload_slider p)
     (success_pie_chart p)
     (set_output (success_payload_scatter_chart p) r), w').

(** The page as it opens: the dropdown at ['ALL'], the slider at the two
    bounds, both callbacks called once. *)
Definition open_page (low high : Number) (w : World) : Page * World :=
  let '(p, w') := update_pie (mkPage default_site [low; high] None None) w in
  update_scatter p w'.

Definition handle (ev : Event) (p : Page) (w : World) : Page * World :=
  match ev with
  | SelectSite site =>
      let '(p', w') :=
        update_pie (mkPage site (payload_slider p) (success_pie_chart p)
                      (success_payload_scatter_chart p)) w in
      update_scatter p' w'
  | MoveSlider low high =>
      update_scatter (mkPage (site_dropdown p) [low; high]
                        (success_pie_chart p)
                        (success_payload_scatter_chart p)) w
  end.

Fixpoint browse (evs : list Event) (p : Page) (w : World) : Page * World :=
  match evs with
  | [] => (p, w)
  | ev :: evs' => let '(p', w') := handle ev p w in browse evs' p' w'
  end.

(** A page whose graphs show what the callbacks return for the values of
    its controls. *)
Definition up_to_date (p : Page) (w : World) : Prop :=
  (∃ fig, success_pie_chart p = Some fig ∧
          (get_pie_chart (site_dropdown p) w).1 = Ok fig) ∧
  (∃ fig, success_payload_scatter_chart p = Some fig ∧
          (get_scatter_chart (site_dropdown p) (payload_slider p) w).1
          = Ok fig).

(** A state that holds the frame [df] and nothing else. *)
Definition world_of (df : DataFrame) : World :=
  mkWorld (mkGlobals df None None [] []) [].

(** ** Masks and boolean indexing *)

Lemma select_fmap (f : Row → bool) (rs : list Row) :
  select (f <$> rs) rs = filter (λ r, f r = true) rs.
Proof.
  induction rs as [|r rs IH]; [done|].
  cbn [fmap list_fmap select]. rewrite IH.
  destruct (f r) eqn:E.
  - by rewrite filter_cons_True.
  - rewrite filter_cons_False; [done|]. by rewrite E.
Qed.

Lemma getitem_mask_fmap (df : DataFrame) (f : Row → bool) :
  getitem_mask df (f <$> rows df)
  = Ok (with_rows df (filter (λ r, f r = true) (rows df))).
Proof.
  unfold getitem_mask.
  rewrite bool_decide_eq_true_2 by apply length_fmap.
  by rewrite select_fmap.
Qed.

Lemma with_rows_with_rows (df : DataFrame) (rs rs' : list Row) :
  with_rows (with_rows df rs) rs' = with_rows df rs'.
Proof. done. Qed.

Lemma payload_mask (d : Dtype) (low high : Number) (rs : list Row) :
  mask_and (ge_scalar d low (Payload_Mass <$> rs))
           (le_scalar d high (Payload_Mass <$> rs))
  = (λ r, bool_decide (kept d low high r)) <$> rs.
Proof.
  unfold mask_and, ge_scalar, le_scalar.
  induction rs as [|r rs IH]; [done|].
  cbn [fmap list_fmap zip_with]. f_equal; [|exact IH].
  destruct (Payload_Mass r) as [p|] eqn:E.
  - destruct (cell_ge d p low) eqn:Hge, (cell_le d p high) eqn:Hle; cbn;
      symmetry;
      first [apply bool_decide_eq_true_2 | apply bool_decide_eq_false_2];
      unfold kept; rewrite E, Hge, Hle; first [done | by intros [? ?]].
  - symmetry. apply bool_decide_eq_false_2. unfold kept. rewrite E. tauto.
Qed.

Lemma site_mask (site : string) (rs : list Row) :
  eq_scalar site (Launch_Site <$> rs)
  = (λ r, bool_decide (Launch_Site r = Some site)) <$> rs.
Proof.
  unfold eq_scalar. rewrite <- list_fmap_compose.
  apply list_fmap_ext. intros _ r _. cbn.
  destruct (Launch_Site r) as [v|]; [|done].
  destruct (decide (v = site)) as [->|Hne].
  - by rewrite !bool_decide_eq_true_2.
  - rewrite !bool_decide_eq_false_2; [done|congruence|done].
Qed.

Lemma has_columns_cons (df : DataFrame) (c : string) (cs : list string) :
  has_columns df (c :: cs) = true ↔
  has_column df c = true ∧ has_columns df cs = true.
Proof. unfold has_columns. cbn. apply andb_true_iff. Qed.

Lemma Dataset_columns (df : DataFrame) :
  Dataset df = true →
  has_column df col_site = true ∧ has_column df col_payload = true ∧
  has_column df col_class = true ∧ has_column df col_booster = true.
Proof.
  unfold Dataset, four_columns. rewrite !has_columns_cons. tauto.
Qed.

Lemma px_check_ok (df : DataFrame) (args : list string) :
  has_columns df args = true → px_check df args = Ok tt.
Proof.
  intros H. unfold px_check.
  assert (filter (λ c, has_column df c = false) args = []) as ->; [|done].
  induction args as [|c args IH]; [done|].
  apply has_columns_cons in H as [Hc Hcs].
  rewrite filter_cons_False by congruence. auto.
Qed.

(** ** What the callbacks compute on a data set *)

Lemma getcol_ok {A} (df : DataFrame) (c : string) (field : Row → A) :
  has_column df c = true → getcol df c field = Ok (field <$> rows df).
Proof. intros H. unfold getcol. by rewrite H. Qed.

Lemma px_scatter_ok (df : DataFrame) (title : string) :
  has_column df col_payload = true → has_column df col_class = true →
  has_column df col_booster = true →
  px_scatter df col_payload col_class col_booster title
  = Ok (Scatter df (group_by_booster (rows df))
          col_payload col_class col_booster title).
Proof.
  intros H1 H2 H3. unfold px_scatter. rewrite px_check_ok; [done|].
  rewrite !has_columns_cons. done.
Qed.

Lemma px_pie_ok (df : DataFrame) (title : string) :
  has_column df col_class = true →
  px_pie df col_class title col_class color_map label_map
  = Ok (Pie df col_class title col_class color_map label_map).
Proof.
  intros H. unfold px_pie. rewrite px_check_ok; [done|].
  rewrite !has_columns_cons. done.
Qed.

Lemma get_scatter_chart_run (w : World) (site : string) (low high : Number) :
  Dataset (spacex_df (globals w)) = true →
  ∃ title,
    get_scatter_chart site [low; high] w
    = (Ok (Scatter
             (with_rows (spacex_df (globals w))
                (filter (λ r, kept (payload_dtype (spacex_df (globals w)))
                                low high r ∧ at_site site r)
                   (rows (spacex_df (globals w)))))
             (group_by_booster
                (filter (λ r, kept (payload_dtype (spacex_df (globals w)))
                                low high r ∧ at_site site r)
                   (rows (spacex_df (globals w)))))
             col_payload col_class col_booster title),
       mkWorld (globals w)
         (log w ++ [(DEBUG, GeneratingScatter site [low; high])])).
Proof.
  intros (Hs & Hp & Hc & Hb)%Dataset_columns.
  unfold get_scatter_chart, bind, logging, lift, read_global, ret.
  cbn [unpack2 globals log].
  rewrite (getcol_ok _ _ _ Hp), payload_mask, getitem_mask_fmap.
  set (d := payload_dtype (spacex_df (globals w))).
  destruct (decide (site = "ALL")) as [->|Hne].
  - rewrite bool_decide_eq_true_2 by done.
    rewrite px_scatter_ok by done. cbn [rows with_rows].
    rewrite (list_filter_iff _ (λ r, kept d low high r ∧ at_site "ALL" r)).
    + eexists. reflexivity.
    + intros r. rewrite bool_decide_eq_true. unfold at_site. tauto.
  - rewrite bool_decide_eq_false_2 by done.
    rewrite getcol_ok by done. cbn [rows columns with_rows].
    rewrite site_mask.
    pose proof (getitem_mask_fmap
      (with_rows (spacex_df (globals w))
         (filter (λ r, bool_decide (kept d low high r) = true)
            (rows (spacex_df (globals w)))))
      (λ r, bool_decide (Launch_Site r = Some site))) as Hm.
    cbn [rows with_rows] in Hm. rewrite Hm, with_rows_with_rows.
    rewrite px_scatter_ok by done. cbn [rows with_rows].
    rewrite list_filter_filter.
    rewrite (list_filter_iff _ (λ r, kept d low high r ∧ at_site site r)).
    + eexists. reflexivity.
    + intros r. rewrite !bool_decide_eq_true. unfold at_site. tauto.
Qed.

Lemma get_pie_chart_run (w : World) (site : string) :
  has_column (spacex_df (globals w)) col_site = true →
  has_column (spacex_df (globals w)) col_class = true →
  ∃ title,
    get_pie_chart site w
    = (Ok (Pie
             (with_rows (spacex_df (globals w))
                (filter (at_site site) (rows (spacex_df (globals w)))))
             col_class title col_class color_map label_map),
       mkWorld (globals w) (log w ++ [(DEBUG, GeneratingPie site)])).
Proof.
  intros Hs Hc.
  unfold get_pie_chart, bind, logging, lift, read_global, ret.
  cbn [globals log].
  destruct (decide (site = "ALL")) as [->|Hne].
  - rewrite bool_decide_eq_true_2 by done.
    rewrite px_pie_ok by done.
    assert (filter (at_site "ALL") (rows (spacex_df (globals w)))
            = rows (spacex_df (globals w))) as ->.
    { induction (rows (spacex_df (globals w))) as [|r rs IH]; [done|].
      rewrite filter_cons_True by (by left). by rewrite IH. }
    cbn [globals log]. destruct (spacex_df (globals w)). by eexists.
  - rewrite bool_decide_eq_false_2 by done. cbn [globals log].
    rewrite getcol_ok by done.
    rewrite site_mask, getitem_mask_fmap.
    rewrite px_pie_ok by done.
    rewrite (list_filter_iff _ (at_site site)).
    + by eexists.
    + intros r. rewrite bool_decide_eq_true. unfold at_site. tauto.
Qed.

(** ** The callbacks only read the globals *)

Lemma ret_frame {A} (a : A) : frame_ok (ret a).
Proof. done. Qed.

Lemma lift_frame {A} (r : result A) : frame_ok (lift r).
Proof. done. Qed.

Lemma logging_frame (lv : Level) (msg : Message) : frame_ok (logging lv msg).
Proof. done. Qed.

Lemma read_global_frame {A} (name : Globals → A) : frame_ok (read_global name).
Proof. done. Qed.

Lemma bind_frame {A B} (c : M World A) (k : A → M World B) :
  frame_ok c → (∀ a, frame_ok (k a)) → frame_ok (bind c k).
Proof.
  intros Hc Hk w. unfold bind. specialize (Hc w).
  destruct (c w) as [[a|e] w']; cbn in *; [rewrite Hk|]; done.
Qed.

Lemma if_frame {A} (b : bool) (c1 c2 : M World A) :
  frame_ok c1 → frame_ok c2 → frame_ok (if b then c1 else c2).
Proof. by destruct b. Qed.

Create HintDb frame.
#[local] Hint Resolve ret_frame lift_frame logging_frame read_global_frame : frame.

Ltac frame_step :=
  first [ apply bind_frame; [|intros ?]
        | apply if_frame
        | match goal with |- frame_ok (let '(_, _) := ?p in _) =>
            destruct p end
        | solve [auto with frame] ].

Lemma get_pie_chart_frame (site : string) : frame_ok (get_pie_chart site).
Proof. unfold get_pie_chart. repeat frame_step. Qed.

Lemma get_scatter_chart_frame (site : string) (payload_range : list Number) :
  frame_ok (get_scatter_chart site payload_range).
Proof. unfold get_scatter_chart. repeat frame_step. Qed.

Lemma dispatch_frame (rq : Request) : frame_ok (dispatch rq).
Proof.
  destruct rq; [apply get_pie_chart_frame|apply get_scatter_chart_frame].
Qed.

Lemma app_run_frame (rqs : list Request) (w : World) :
  globals (app_run rqs w).2 = globals w.
Proof.
  revert w. induction rqs as [|rq rqs IH]; intros w; [done|].
  cbn [app_run]. pose proof (dispatch_frame rq w) as Hd.
  destruct (dispatch rq w) as [resp w1]. specialize (IH w1).
  destruct (app_run rqs w1) as [resps w2]. cbn in *. congruence.
Qed.

(** ** The callbacks' outcome depends on the data set alone *)

Lemma ret_determined {A} (a : A) : dataset_determined (ret a).
Proof. by intros w1 w2 H. Qed.

Lemma lift_determined {A} (r : result A) : dataset_determined (lift r).
Proof. by intros w1 w2 H. Qed.

Lemma logging_determined (lv : Level) (msg : Message) :
  dataset_determined (logging lv msg).
Proof. by intros w1 w2 H. Qed.

Lemma read_spacex_df_determined : dataset_determined (read_global spacex_df).
Proof. intros w1 w2 H. split; [cbn; by f_equal|done]. Qed.

Lemma bind_determined {A B} (c : M World A) (k : A → M World B) :
  dataset_determined c → (∀ a, dataset_determined (k a)) →
  dataset_determined (bind c k).
Proof.
  intros Hc Hk w1 w2 H. unfold bind.
  destruct (Hc w1 w2 H) as [Hr Hw].
  destruct (c w1) as [r1 w1'], (c w2) as [r2 w2']. cbn in Hr, Hw. subst r2.
  destruct r1 as [a|e]; [by apply Hk|done].
Qed.

Lemma if_determined {A} (b : bool) (c1 c2 : M World A) :
  dataset_determined c1 → dataset_determined c2 →
  dataset_determined (if b then c1 else c2).
Proof. by destruct b. Qed.

Create HintDb determined.
#[local] Hint Resolve ret_determined lift_determined logging_determined
  read_spacex_df_determined : determined.

Ltac determined_step :=
  first [ apply bind_determined; [|intros ?]
        | apply if_determined
        | match goal with |- dataset_determined (let '(_, _) := ?p in _) =>
            destruct p end
        | solve [auto with determined] ].

Lemma get_pie_chart_determined (site : string) :
  dataset_determined (get_pie_chart site).
Proof. unfold get_pie_chart. repeat determined_step. Qed.

Lemma get_scatter_chart_determined (site : string) (payload_range : list Number) :
  dataset_determined (get_scatter_chart site payload_range).
Proof. unfold get_scatter_chart. repeat determined_step. Qed.

Lemma app_run_same_dataset (rqs : list Request) (w : World) :
  same_dataset (app_run rqs w).2 w.
Proof. unfold same_dataset. by rewrite app_run_frame. Qed.

(** ** Counting labels *)

Lemma total_insert (k : option Z) (n : nat) (m : gmap (option Z) nat) :
  m !! k = None → total (<[k := n]> m) = n + total m.
Proof.
  intros Hk. unfold total.
  rewrite map_fold_insert_L; [done| |done].
  intros. lia.
Qed.

Lemma total_count_label (k : option Z) (m : gmap (option Z) nat) :
  total (count_label k m) = S (total m).
Proof.
  unfold count_label. destruct (m !! k) as [n|] eqn:Hk; cbn [default].
  - rewrite <- (insert_delete_eq m k (S n)).
    transitivity (S (total (<[k := n]> (delete k m)))).
    + rewrite !total_insert by apply lookup_delete_eq. lia.
    + by rewrite insert_delete_id.
  - by rewrite total_insert.
Qed.

Lemma total_value_counts (s : list (option Z)) :
  total (value_counts s) = length s.
Proof.
  induction s as [|k s IH]; [done|].
  cbn [value_counts foldr length].
  fold (value_counts s). by rewrite total_count_label, IH.
Qed.

Lemma value_counts_lookup (s : list (option Z)) (k : option Z) :
  value_counts s !! k
  = match length (filter (λ x, x = k) s) with
    | O => None
    | S n => Some (S n)
    end.
Proof.
  induction s as [|x s IH]; [done|].
  cbn [value_counts foldr]. fold (value_counts s). unfold count_label.
  destruct (decide (x = k)) as [->|Hne].
  - rewrite lookup_insert_eq, filter_cons_True by done.
    cbn [length]. rewrite IH.
    by destruct (length (filter (λ x, x = k) s)).
  - rewrite lookup_insert_ne, filter_cons_False by done. exact IH.
Qed.

Lemma value_counts_positive (s : list (option Z)) (k : option Z) (n : nat) :
  value_counts s !! k = Some n → 0 < n.
Proof.
  rewrite value_counts_lookup.
  destruct (length (filter (λ x, x = k) s)); [done|].
  intros [= <-]. lia.
Qed.

Lemma value_counts_absent (s : list (option Z)) (k : option Z) :
  k ∉ s → value_counts s !! k = None.
Proof.
  intros Hk. rewrite value_counts_lookup.
  assert (filter (λ x, x = k) s = []) as ->; [|done].
  induction s as [|x s IH]; [done|].
  apply not_elem_of_cons in Hk as [Hne Hk].
  rewrite filter_cons_False by done. auto.
Qed.

(** ** Reductions over a float column *)

Lemma Qc_max_spec (x y : Qc) :
  (Qc_max x y = x ∨ Qc_max x y = y) ∧ (x ≤ Qc_max x y)%Qc ∧ (y ≤ Qc_max x y)%Qc.
Proof.
  unfold Qc_max. destruct (decide (x ≤ y)%Qc) as [H|H].
  - split; [by right|]. split; [done|apply Qcle_refl].
  - split; [by left|]. split; [apply Qcle_refl|].
    apply Qclt_le_weak. by apply Qcnot_le_lt.
Qed.

Lemma Qc_min_spec (x y : Qc) :
  (Qc_min x y = x ∨ Qc_min x y = y) ∧ (Qc_min x y ≤ x)%Qc ∧ (Qc_min x y ≤ y)%Qc.
Proof.
  unfold Qc_min. destruct (decide (x ≤ y)%Qc) as [H|H].
  - split; [by left|]. split; [apply Qcle_refl|done].
  - split; [by right|]. split; [|apply Qcle_refl].
    apply Qclt_le_weak. by apply Qcnot_le_lt.
Qed.

Lemma series_max_spec (s : list (option Qc)) :
  match series_max s with
  | Some m => Some m ∈ s ∧ ∀ p, Some p ∈ s → (p ≤ m)%Qc
  | None => ∀ p, Some p ∉ s
  end.
Proof.
  unfold series_max, reduce_skipna.
  induction s as [|c s IH]; cbn [foldr].
  - intros p Hp. by apply elem_of_nil in Hp.
  - destruct c as [p|].
    + destruct (foldr _ None s) as [q|].
      * destruct IH as [Hq Hle].
        destruct (Qc_max_spec p q) as ([->| ->] & Hp' & Hq').
        -- split; [left|]. intros p' [[= ->]|Hin]%elem_of_cons; [done|].
           eapply Qcle_trans; [by apply Hle|done].
        -- split; [by right|]. intros p' [[= ->]|Hin]%elem_of_cons; [done|].
           by apply Hle.
      * split; [left|]. intros p' [[= ->]|Hin]%elem_of_cons.
        -- apply Qcle_refl.
        -- by apply IH in Hin.
    + destruct (foldr _ None s) as [q|].
      * destruct IH as [Hq Hle]. split; [by right|].
        intros p' [?|Hin]%elem_of_cons; [done|]. by apply Hle.
      * intros p' [?|Hin]%elem_of_cons; [done|]. by apply IH in Hin.
Qed.

Lemma series_min_spec (s : list (option Qc)) :
  match series_min s with
  | Some m => Some m ∈ s ∧ ∀ p, Some p ∈ s → (m ≤ p)%Qc
  | None => ∀ p, Some p ∉ s
  end.
Proof.
  unfold series_min, reduce_skipna.
  induction s as [|c s IH]; cbn [foldr].
  - intros p Hp. by apply elem_of_nil in Hp.
  - destruct c as [p|].
    + destruct (foldr _ None s) as [q|].
      * destruct IH as [Hq Hle].
        destruct (Qc_min_spec p q) as ([->| ->] & Hp' & Hq').
        -- split; [left|]. intros p' [[= ->]|Hin]%elem_of_cons; [done|].
           eapply Qcle_trans; [done|by apply Hle].
        -- split; [by right|]. intros p' [[= ->]|Hin]%elem_of_cons; [done|].
           by apply Hle.
      * split; [left|]. intros p' [[= ->]|Hin]%elem_of_cons.
        -- apply Qcle_refl.
        -- by apply IH in Hin.
    + destruct (foldr _ None s) as [q|].
      * destruct IH as [Hq Hle]. split; [by right|].
        intros p' [?|Hin]%elem_of_cons; [done|]. by apply Hle.
      * intros p' [?|Hin]%elem_of_cons; [done|]. by apply IH in Hin.
Qed.

(** ** Distinct values in order of first appearance *)

Section unique.
Context {A : Type} `{EqDecision A}.
Implicit Types (x : A) (s seen : list A).

Lemma elem_of_unique_from seen s x :
  x ∈ unique_from seen s ↔ x ∈ s ∧ x ∉ seen.
Proof.
  revert seen. induction s as [|y s IH]; intros seen; cbn [unique_from].
  - rewrite !elem_of_nil. tauto.
  - case_bool_decide as Hy.
    + rewrite IH, elem_of_cons. split; [tauto|].
      intros [[->|Hx] Hn]; [done|tauto].
    + rewrite !elem_of_cons, IH, not_elem_of_cons.
      destruct (decide (x = y)) as [->|Hne]; tauto.
Qed.

Lemma NoDup_unique_from seen s : NoDup (unique_from seen s).
Proof.
  revert seen. induction s as [|y s IH]; intros seen; cbn [unique_from].
  - constructor.
  - case_bool_decide as Hy; [apply IH|].
    constructor; [|apply IH].
    rewrite elem_of_unique_from, not_elem_of_cons. tauto.
Qed.

Lemma first_index_elem_of x s : x ∈ s → is_Some (first_index x s).
Proof.
  induction s as [|y s IH]; [by intros ?%elem_of_nil|].
  intros Hx. cbn [first_index].
  destruct (decide (x = y)) as [?|Hne]; [by eexists|].
  apply elem_of_cons in Hx as [?|Hx]; [done|].
  destruct (IH Hx) as [n ->]. by eexists.
Qed.

Lemma first_index_lookup x s n : first_index x s = Some n → s !! n = Some x.
Proof.
  revert n. induction s as [|y s IH]; intros n; cbn [first_index]; [done|].
  destruct (decide (x = y)) as [->|Hne].
  - by intros [= <-].
  - destruct (first_index x s) as [m|]; [|done].
    intros [= <-]. by apply IH.
Qed.

Lemma first_index_least x s n i :
  first_index x s = Some n → s !! i = Some x → (n ≤ i)%nat.
Proof.
  revert n i. induction s as [|y s IH]; intros n i; cbn [first_index]; [done|].
  destruct (decide (x = y)) as [->|Hne].
  - intros [= <-] _. lia.
  - destruct (first_index x s) as [m|]; [|done].
    intros [= <-]. destruct i as [|i]; cbn; [congruence|].
    intros Hi. specialize (IH m i eq_refl Hi). lia.
Qed.

Lemma unique_from_order seen s i j a b :
  unique_from seen s !! i = Some a →
  unique_from seen s !! j = Some b →
  (i < j)%nat →
  ∃ m n, first_index a s = Some m ∧ first_index b s = Some n ∧ (m < n)%nat.
Proof.
  revert seen i j.
  induction s as [|y s IH]; intros seen i j; cbn [unique_from]; [done|].
  case_bool_decide as Hy.
  - intros Ha Hb Hij.
    destruct (IH _ _ _ Ha Hb Hij) as (m & n & Hm & Hn & Hmn).
    assert (a ≠ y ∧ b ≠ y) as [Hay Hby].
    { split; intros ->.
      - apply list_elem_of_lookup_2, elem_of_unique_from in Ha. tauto.
      - apply list_elem_of_lookup_2, elem_of_unique_from in Hb. tauto. }
    exists (S m), (S n). cbn [first_index].
    rewrite !decide_False, Hm, Hn by done. cbn. split_and!; [done..|lia].
  - intros Ha Hb Hij. destruct j as [|j]; [lia|]. cbn in Hb.
    assert (b ∈ s ∧ b ≠ y) as [Hbs Hby].
    { apply list_elem_of_lookup_2, elem_of_unique_from in Hb.
      rewrite not_elem_of_cons in Hb. tauto. }
    destruct i as [|i]; cbn in Ha.
    + injection Ha as <-.
      destruct (first_index_elem_of b s Hbs) as [n Hn].
      exists 0, (S n). cbn [first_index].
      rewrite decide_True, decide_False, Hn by done.
      cbn. split_and!; [done..|lia].
    + assert (a ≠ y) as Hay.
      { intros ->.
        apply list_elem_of_lookup_2, elem_of_unique_from in Ha.
        rewrite not_elem_of_cons in Ha. tauto. }
      destruct (IH _ _ _ Ha Hb ltac:(lia)) as (m & n & Hm & Hn & Hmn).
      exists (S m), (S n). cbn [first_index].
      rewrite !decide_False, Hm, Hn by done. cbn. split_and!; [done..|lia].
Qed.

Lemma elem_of_unique s x : x ∈ unique s ↔ x ∈ s.
Proof.
  unfold unique. rewrite elem_of_unique_from, elem_of_nil. tauto.
Qed.
End unique.

(** ** The top level *)

Lemma missing_nil (df : DataFrame) (cs : list string) :
  filter (λ c, has_column df c = false) cs = [] ↔ has_columns df cs = true.
Proof.
  induction cs as [|c cs IH]; [done|].
  rewrite has_columns_cons, <- IH.
  destruct (has_column df c) eqn:Hc.
  - rewrite filter_cons_False by congruence. tauto.
  - rewrite filter_cons_True by done. split; [done|]. by intros [? _].
Qed.

Lemma notna_all_complete (r : Row) :
  notna_all cleaned_columns r = true ↔ complete r.
Proof.
  unfold notna_all, complete, cleaned_columns, isna. cbn.
  destruct (Payload_Mass r), (Launch_Site r), (class r); cbn;
    rewrite ?is_Some_alt; split; try done; try tauto; by intros (? & ? & ?).
Qed.

(** The frame [dropna] leaves. *)
Lemma dropna_ok (df : DataFrame) :
  has_columns df cleaned_columns = true →
  dropna cleaned_columns df
  = Ok (with_rows df
          (filter (λ r, notna_all cleaned_columns r = true) (rows df))).
Proof.
  intros H. unfold dropna. by apply missing_nil in H as ->.
Qed.

Lemma dropna_missing (df : DataFrame) :
  has_columns df cleaned_columns = false →
  ∃ missing, dropna cleaned_columns df = Raise (KeyError missing).
Proof.
  intros H. unfold dropna.
  destruct (filter _ cleaned_columns) as [|c cs] eqn:E; [|by eexists].
  apply missing_nil in E. congruence.
Qed.

Lemma startup_ok (table : DataFrame) (lg : list LogRecord) :
  has_columns table cleaned_columns = true →
  let df := with_rows table
              (filter (λ r, notna_all cleaned_columns r = true) (rows table)) in
  startup (Csv table) lg
  = (Ok (mkGlobals df
           (series_max (Payload_Mass <$> rows df))
           (series_min (Payload_Mass <$> rows df))
           (distinctSites df)
           ((Some "All Sites", Some "ALL")
              :: ((λ site, (site, site)) <$> distinctSites df))),
     lg ++ [(INFO, CsvLoaded)] ++ [(INFO, DataCleaned (length (rows df)))]
        ++ [(INFO, PayloadRange (series_min (Payload_Mass <$> rows df))
                     (series_max (Payload_Mass <$> rows df)))]).
Proof.
  intros H df.
  pose proof H as (Hp & (Hs & _)%has_columns_cons)%has_columns_cons.
  unfold startup, load_csv, bind, lift, ret, logging_top. cbn [read_csv].
  fold cleaned_columns. rewrite dropna_ok by done. fold df.
  rewrite !getcol_ok by done.
  by rewrite <- !app_assoc.
Qed.

Lemma startup_fails (f : File) (lg : list LogRecord) :
  loadable f = false → ∃ e lg', startup f lg = (Raise e, lg').
Proof.
  intros H. unfold startup, load_csv, bind, lift, ret, logging_top.
  destruct f as [| | |table]; cbn [read_csv]; [by do 2 eexists..|].
  cbn in H. fold cleaned_columns.
  destruct (dropna_missing table H) as [missing ->].
  by do 2 eexists.
Qed.

(** ** Properties of the scatter chart *)

Lemma filter_none {A} (P : A → Prop) `{!∀ x, Decision (P x)} (l : list A) :
  (∀ x, x ∈ l → ¬ P x) → filter P l = [].
Proof.
  induction l as [|x l IH]; intros Hno; [done|].
  rewrite filter_cons_False by (apply Hno; left).
  apply IH. intros y Hy. apply Hno. by right.
Qed.

Lemma site_not_distinct (df : DataFrame) (site : string) :
  site ≠ "ALL" → Some site ∉ distinctSites df →
  ∀ r, r ∈ rows df → ¬ at_site site r.
Proof.
  intros Hne Hout r Hr [?|Hs]; [done|]. apply Hout.
  unfold distinctSites. rewrite elem_of_unique, <- Hs.
  by apply list_elem_of_fmap_2.
Qed.

(** *** Comparisons that round nothing *)








(** *** The traces of a scatter figure *)













(** C10. [get_scatter_chart] destructures [payload_range] as [(low, high)]
    before it touches the data: on a data set the call returns a figure if
    and only if the range has exactly two elements (whatever their order),
    and a range of any other length raises [ValueError] in every state, also
    one whose frame could not be filtered, with nothing done but the log
    line. *)
Theorem scatter_chart_range_arity
    (w : World) (site : string) (payload_range : list Number) :
  Dataset (spacex_df (globals w)) = true →
  (is_ok (get_scatter_chart site payload_range w).1 = true
   ↔ length payload_range = 2) ∧
  (∀ low high, is_ok (get_scatter_chart site [low; high] w).1 = true) ∧
  (∀ w', length payload_range ≠ 2 →
     ∃ msg, get_scatter_chart site payload_range w'
            = (Raise (ValueError msg),
               mkWorld (globals w')
                 (log w' ++ [(DEBUG, GeneratingScatter site payload_range)]))).
Proof.
  intros H.
  assert (∀ w', length payload_range ≠ 2 →
     ∃ msg, get_scatter_chart site payload_range w'
            = (Raise (ValueError msg),
               mkWorld (globals w')
                 (log w' ++ [(DEBUG, GeneratingScatter site payload_range)])))
    as Hbad.
  { intros w' Hlen.
    unfold get_scatter_chart, bind, logging, lift.
    destruct payload_range as [|a [|b [|c l]]]; cbn [unpack2];
      first [by exfalso; apply Hlen | by eexists]. }
  assert (∀ low high, is_ok (get_scatter_chart site [low; high] w).1 = true)
    as Hgood.
  { intros low high.
    by destruct (get_scatter_chart_run w site low high H) as [title ->]. }
  split; [|by split]. split.
  - intros Hok. destruct (decide (length payload_range = 2)) as [|Hlen]; [done|].
    destruct (Hbad w Hlen) as [msg Hr]. by rewrite Hr in Hok.
  - intros Hlen. destruct payload_range as [|a [|b [|c l]]]; try done.
Qed.

Lemma scatter_chart_range_arity_witness :
  Dataset (spacex_df (globals sample_world)) = true ∧
  (is_ok (get_scatter_chart "ALL" [PyInt 0] sample_world).1 = true
   ↔ length [PyInt 0] = 2) ∧
  (∀ low high, is_ok (get_scatter_chart "ALL" [low; high] sample_world).1 = true) ∧
  (∀ w', length [PyInt 0] ≠ 2 →
     ∃ msg, get_scatter_chart "ALL" [PyInt 0] w'
            = (Raise (ValueError msg),
               mkWorld (globals w')
                 (log w' ++ [(DEBUG, GeneratingScatter "ALL" [PyInt 0])]))).
Proof.
  split; [reflexivity|].
  apply (scatter_chart_range_arity sample_world "ALL" [PyInt 0]).
  reflexivity.
Defined.

(** ** Properties of the pie chart *)

Lemma pie_columns (df : DataFrame) :
  has_columns df [col_site; col_class] = true →
  has_column df col_site = true ∧ has_column df col_class = true.
Proof. rewrite !has_columns_cons. tauto. Qed.

Lemma filter_at_site_ALL (rs : list Row) : filter (at_site "ALL") rs = rs.
Proof.
  induction rs as [|r rs IH]; [done|].
  rewrite filter_cons_True by (by left). by rewrite IH.
Qed.

(** C2. For every data set and every site among ["ALL"] and the distinct
    launch sites, the counts of the pie chart add up to the number of
    records of the data set at that site, and to the size of the data set
    for ["ALL"]. *)
Theorem pie_chart_total (w : World) (site : string) :
  has_columns (spacex_df (globals w)) [col_site; col_class] = true →
  site = "ALL" ∨ Some site ∈ distinctSites (spacex_df (globals w)) →
  ∃ fig,
    (get_pie_chart site w).1 = Ok fig ∧
    total (pie_slices fig)
    = length (filter (at_site site) (rows (spacex_df (globals w)))) ∧
    (site = "ALL" →
     total (pie_slices fig) = length (rows (spacex_df (globals w)))) ∧
    (site ≠ "ALL" →
     total (pie_slices fig)
     = length (filter (λ r, Launch_Site r = Some site)
                 (rows (spacex_df (globals w))))).
Proof.
  intros [Hs Hc]%pie_columns _.
  destruct (get_pie_chart_run w site Hs Hc) as [title ->].
  eexists. split; [done|].
  unfold pie_slices. cbn [figure_data rows fst with_rows].
  rewrite total_value_counts, length_fmap.
  split; [done|]. split.
  - intros ->. by rewrite filter_at_site_ALL.
  - intros Hne. f_equal. apply list_filter_iff. intros r.
    unfold at_site. tauto.
Qed.

Lemma pie_chart_total_witness :
  has_columns (spacex_df (globals sample_world)) [col_site; col_class] = true ∧
  ("CCAFS" = "ALL" ∨
   Some "CCAFS" ∈ distinctSites (spacex_df (globals sample_world))) ∧
  ∃ fig,
    (get_pie_chart "CCAFS" sample_world).1 = Ok fig ∧
    total (pie_slices fig)
    = length (filter (at_site "CCAFS")
                (rows (spacex_df (globals sample_world)))) ∧
    ("CCAFS" = "ALL" →
     total (pie_slices fig) = length (rows (spacex_df (globals sample_world)))) ∧
    ("CCAFS" ≠ "ALL" →
     total (pie_slices fig)
     = length (filter (λ r, Launch_Site r = Some "CCAFS")
                 (rows (spacex_df (globals sample_world))))).
Proof.
  split; [reflexivity|]. split; [compute_done|].
  apply (pie_chart_total sample_world "CCAFS"); [reflexivity | compute_done].
Defined.

(** C6. For every site selector, a class with no record in the selection has
    no entry in the pie chart's mapping, and every entry of the mapping
    counts at least one record. *)
Theorem pie_chart_omits_absent (w : World) (site : string) (c : Z) :
  has_columns (spacex_df (globals w)) [col_site; col_class] = true →
  ∃ fig,
    (get_pie_chart site w).1 = Ok fig ∧
    ((∀ r, r ∈ rows (spacex_df (globals w)) → at_site site r →
           class r ≠ Some c) →
     pie_slices fig !! Some c = None) ∧
    (∀ k n, pie_slices fig !! k = Some n → 0 < n).
Proof.
  intros [Hs Hc]%pie_columns.
  destruct (get_pie_chart_run w site Hs Hc) as [title ->].
  eexists. split; [done|].
  unfold pie_slices. cbn [figure_data rows fst with_rows]. split.
  - intros Hno. apply value_counts_absent.
    intros (r & Hr & [Hsite Hin]%list_elem_of_filter)%list_elem_of_fmap.
    by apply (Hno r).
  - intros k n. apply value_counts_positive.
Qed.

Lemma pie_chart_omits_absent_witness :
  has_columns (spacex_df (globals sample_world)) [col_site; col_class] = true ∧
  ∃ fig,
    (get_pie_chart "KSC" sample_world).1 = Ok fig ∧
    ((∀ r, r ∈ rows (spacex_df (globals sample_world)) → at_site "KSC" r →
           class r ≠ Some 0%Z) →
     pie_slices fig !! Some 0%Z = None) ∧
    (∀ k n, pie_slices fig !! k = Some n → 0 < n).
Proof.
  split; [reflexivity|].
  apply (pie_chart_omits_absent sample_world "KSC" 0%Z). reflexivity.
Defined.

(** ** A site that is not in the data *)

(** C4. For a site that is neither ["ALL"] nor one of the distinct launch
    sites of the data set, both callbacks return a figure and raise nothing:
    the pie chart has no record and no slice, the scatter chart (for any
    two bounds) has no record. *)
Theorem unknown_site_empty (w : World) (site : string) (low high : Number) :
  Dataset (spacex_df (globals w)) = true →
  site ≠ "ALL" →
  Some site ∉ distinctSites (spacex_df (globals w)) →
  (∃ fig, (get_pie_chart site w).1 = Ok fig ∧
          rows (figure_data fig) = [] ∧ pie_slices fig = ∅) ∧
  (∃ fig, (get_scatter_chart site [low; high] w).1 = Ok fig ∧
          rows (figure_data fig) = []).
Proof.
  intros H Hne Hout.
  pose proof (site_not_distinct _ _ Hne Hout) as Hno.
  pose proof H as (Hs & _ & Hc & _)%Dataset_columns.
  split.
  - destruct (get_pie_chart_run w site Hs Hc) as [title ->].
    eexists. split; [done|].
    unfold pie_slices. cbn [figure_data rows fst with_rows].
    by rewrite (filter_none _ _ Hno).
  - destruct (get_scatter_chart_run w site low high H) as [title ->].
    eexists. split; [done|]. cbn [figure_data rows fst with_rows].
    apply filter_none. intros r Hr [_ Hsite]. by apply (Hno r).
Qed.

Lemma unknown_site_empty_witness :
  Dataset (spacex_df (globals sample_world)) = true ∧
  "VAFB" ≠ "ALL" ∧
  (Some "VAFB" ∉ distinctSites (spacex_df (globals sample_world))) ∧
  (∃ fig, (get_pie_chart "VAFB" sample_world).1 = Ok fig ∧
          rows (figure_data fig) = [] ∧ pie_slices fig = ∅) ∧
  (∃ fig, (get_scatter_chart "VAFB" [PyInt 0; PyInt 9000] sample_world).1 = Ok fig ∧
          rows (figure_data fig) = []).
Proof.
  split; [reflexivity|]. split; [compute_done|]. split; [compute_done|].
  apply (unknown_site_empty sample_world "VAFB" (PyInt 0) (PyInt 9000));
    [reflexivity | compute_done | compute_done].
Defined.

(** ** State: what the callbacks read and what they leave *)

(** C7. The two callbacks are functions of the data set and the filter
    selection: in two states that hold the same data set, whatever else
    differs (the log, the other globals), each returns the same outcome for
    the same arguments; in particular a call gives the same outcome after
    any run of served requests as before it. *)
Theorem charts_deterministic
    (w1 w2 : World) (site : string) (payload_range : list Number)
    (rqs : list Request) :
  same_dataset w1 w2 →
  (get_pie_chart site w1).1 = (get_pie_chart site w2).1 ∧
  (get_scatter_chart site payload_range w1).1
  = (get_scatter_chart site payload_range w2).1 ∧
  (get_pie_chart site (app_run rqs w1).2).1 = (get_pie_chart site w1).1 ∧
  (get_scatter_chart site payload_range (app_run rqs w1).2).1
  = (get_scatter_chart site payload_range w1).1 ∧
  (get_pie_chart site (get_pie_chart site w1).2).1 = (get_pie_chart site w1).1 ∧
  (get_scatter_chart site payload_range
     (get_scatter_chart site payload_range w1).2).1
  = (get_scatter_chart site payload_range w1).1.
Proof.
  intros H. split_and!.
  - by apply get_pie_chart_determined.
  - by apply get_scatter_chart_determined.
  - apply get_pie_chart_determined, app_run_same_dataset.
  - apply get_scatter_chart_determined, app_run_same_dataset.
  - apply get_pie_chart_determined. unfold same_dataset.
    by rewrite get_pie_chart_frame.
  - apply get_scatter_chart_determined. unfold same_dataset.
    by rewrite get_scatter_chart_frame.
Qed.

Lemma charts_deterministic_witness :
  same_dataset sample_world
    (mkWorld (mkGlobals sample_df None None [] []) [(INFO, CsvLoaded)]) ∧
  (get_pie_chart "KSC" sample_world).1
  = (get_pie_chart "KSC"
       (mkWorld (mkGlobals sample_df None None [] []) [(INFO, CsvLoaded)])).1 ∧
  (get_scatter_chart "KSC" [PyInt 0; PyInt 2600] sample_world).1
  = (get_scatter_chart "KSC" [PyInt 0; PyInt 2600]
       (mkWorld (mkGlobals sample_df None None [] []) [(INFO, CsvLoaded)])).1.
Proof.
  split; [reflexivity|].
  destruct (charts_deterministic sample_world
              (mkWorld (mkGlobals sample_df None None [] []) [(INFO, CsvLoaded)])
              "KSC" [PyInt 0; PyInt 2600] [PieRequest "ALL"])
    as (Hpie & Hscatter & _); [reflexivity|].
  split; assumption.
Defined.

(** C9. No run of chart computations changes the loaded data: after any
    sequence of requests, with any selections, failing or not, the frame,
    the payload bounds and the list of launch sites are what they were. *)
Theorem charts_leave_dataset (rqs : list Request) (w : World) :
  globals (app_run rqs w).2 = globals w ∧
  spacex_df (globals (app_run rqs w).2) = spacex_df (globals w) ∧
  min_payload (globals (app_run rqs w).2) = min_payload (globals w) ∧
  max_payload (globals (app_run rqs w).2) = max_payload (globals w) ∧
  launch_sites (globals (app_run rqs w).2) = launch_sites (globals w) ∧
  (∀ site, globals (get_pie_chart site w).2 = globals w) ∧
  (∀ site payload_range,
     globals (get_scatter_chart site payload_range w).2 = globals w).
Proof.
  rewrite app_run_frame. split_and!; try done.
  - intros site. apply get_pie_chart_frame.
  - intros site payload_range. apply get_scatter_chart_frame.
Qed.

(** ** Loading *)

Lemma loadable_inv (f : File) :
  loadable f = true →
  ∃ table, f = Csv table ∧ has_columns table cleaned_columns = true.
Proof. destruct f; try done. by eexists. Qed.

(** C5. Loading a readable table that has the three cleaned columns
    succeeds, and then no record of the data set lacks a payload mass, a
    launch site or a class: the data set is the table without exactly those
    rows.  [max_payload] and [min_payload] are the largest and the smallest
    payload mass of the surviving records (NaN when none survives), and
    [launch_sites] holds each surviving launch site once, in the order in
    which the sites first appear. *)
Theorem startup_cleans (f : File) (lg0 : list LogRecord) :
  loadable f = true →
  ∃ table g lg,
    f = Csv table ∧
    startup f lg0 = (Ok g, lg) ∧
    rows (spacex_df g) = filter complete (rows table) ∧
    (∀ r, r ∈ rows (spacex_df g) → complete r) ∧
    match max_payload g with
    | Some m => (∃ r, r ∈ rows (spacex_df g) ∧ Payload_Mass r = Some m) ∧
                ∀ r p, r ∈ rows (spacex_df g) → Payload_Mass r = Some p →
                       (p ≤ m)%Qc
    | None => rows (spacex_df g) = []
    end ∧
    match min_payload g with
    | Some m => (∃ r, r ∈ rows (spacex_df g) ∧ Payload_Mass r = Some m) ∧
                ∀ r p, r ∈ rows (spacex_df g) → Payload_Mass r = Some p →
                       (m ≤ p)%Qc
    | None => rows (spacex_df g) = []
    end ∧
    launch_sites g = distinctSites (spacex_df g) ∧
    NoDup (launch_sites g) ∧
    (∀ s, s ∈ launch_sites g ↔
          ∃ r, r ∈ rows (spacex_df g) ∧ Launch_Site r = s) ∧
    (∀ s, s ∈ launch_sites g → is_Some s) ∧
    (∀ i j a b,
       launch_sites g !! i = Some a → launch_sites g !! j = Some b →
       (i < j)%nat →
       ∃ m n, first_index a (Launch_Site <$> rows (spacex_df g)) = Some m ∧
              first_index b (Launch_Site <$> rows (spacex_df g)) = Some n ∧
              (m < n)%nat).
Proof.
  intros (table & -> & Hcols)%loadable_inv.
  pose proof (startup_ok table lg0 Hcols) as Hrun. cbv zeta in Hrun.
  remember (filter (λ r, notna_all cleaned_columns r = true) (rows table))
    as rs eqn:Ers in Hrun.
  exists table. do 2 eexists. split; [done|]. split; [exact Hrun|]. clear Hrun.
  cbn [spacex_df max_payload min_payload launch_sites rows with_rows].
  assert (∀ r, r ∈ rs → complete r) as Hcomplete.
  { intros r. rewrite Ers. intros [Hr _]%list_elem_of_filter.
    by apply notna_all_complete. }
  split_and!.
  - rewrite Ers. apply list_filter_iff. intros r. apply notna_all_complete.
  - done.
  - pose proof (series_max_spec (Payload_Mass <$> rs)) as Hm.
    destruct (series_max _) as [m|].
    + destruct Hm as [(r & Hr & Hin)%list_elem_of_fmap Hle].
      split; [by exists r|]. intros r' p Hr' Hp. apply Hle.
      rewrite <- Hp. by apply list_elem_of_fmap_2.
    + destruct rs as [|r rs']; [done|].
      destruct (Hcomplete r) as ([p Hp] & _); [left|].
      exfalso. apply (Hm p). rewrite <- Hp. apply list_elem_of_fmap_2. left.
  - pose proof (series_min_spec (Payload_Mass <$> rs)) as Hm.
    destruct (series_min _) as [m|].
    + destruct Hm as [(r & Hr & Hin)%list_elem_of_fmap Hle].
      split; [by exists r|]. intros r' p Hr' Hp. apply Hle.
      rewrite <- Hp. by apply list_elem_of_fmap_2.
    + destruct rs as [|r rs']; [done|].
      destruct (Hcomplete r) as ([p Hp] & _); [left|].
      exfalso. apply (Hm p). rewrite <- Hp. apply list_elem_of_fmap_2. left.
  - done.
  - apply NoDup_unique_from.
  - intros s. unfold distinctSites. cbn [rows with_rows].
    rewrite elem_of_unique, list_elem_of_fmap.
    split; [intros (r & -> & Hr)|intros (r & Hr & <-)]; by exists r.
  - intros s. unfold distinctSites. cbn [rows with_rows].
    rewrite elem_of_unique.
    intros (r & -> & Hr)%list_elem_of_fmap.
    by destruct (Hcomplete r Hr) as (_ & Hs & _).
  - intros i j a b. apply unique_from_order.
Qed.

Lemma startup_cleans_witness :
  loadable (Csv gappy_df) = true ∧
  ∃ table g lg,
    Csv gappy_df = Csv table ∧
    startup (Csv gappy_df) [] = (Ok g, lg) ∧
    rows (spacex_df g) = filter complete (rows table) ∧
    (∀ r, r ∈ rows (spacex_df g) → complete r) ∧
    launch_sites g = distinctSites (spacex_df g) ∧
    NoDup (launch_sites g).
Proof.
  split; [reflexivity|].
  destruct (startup_cleans (Csv gappy_df) [])
    as (table & g & lg & Hf & Hrun & Hrows & Hcomplete & _ & _ & Hsites
        & Hnodup & _); [reflexivity|].
  exists table, g, lg. split_and!; assumption.
Defined.

(** C8, as the code has it.  If the file is missing, unreadable, no CSV, or
    lacks one of the columns [Payload Mass (kg)], [Launch Site], [class],
    the top level raises the exception pandas raised and the process serves
    no request.  The column [Booster Version Category] is not looked at
    while loading. *)
Theorem startup_fatal (f : File) (rqs : list Request) :
  loadable f = false →
  ∃ e, (startup f []).1 = Raise e ∧ (main f rqs).1 = Raise e.
Proof.
  intros H. destruct (startup_fails f [] H) as (e & lg & Hs).
  exists e. unfold main. by rewrite Hs.
Qed.

Lemma startup_fatal_witness :
  loadable (Csv (mkDataFrame [col_site; col_payload] sample_rows)) = false ∧
  ∃ e, (startup (Csv (mkDataFrame [col_site; col_payload] sample_rows)) []).1
       = Raise e ∧
       (main (Csv (mkDataFrame [col_site; col_payload] sample_rows))
          [PieRequest "ALL"]).1 = Raise e.
Proof.
  split; [reflexivity|].
  apply (startup_fatal (Csv (mkDataFrame [col_site; col_payload] sample_rows))
           [PieRequest "ALL"]).
  reflexivity.
Defined.

(** C8 as the specification states it fails: a readable table that lacks
    the column [Booster Version Category] is not a well-formed source, yet
    the top level returns, and the process serves requests: the pie chart
    is answered, the scatter chart raises at each request. *)
Lemma startup_without_booster :
  well_formed (Csv no_booster_df) = false ∧
  is_ok (startup (Csv no_booster_df) []).1 = true ∧
  (∀ e, (startup (Csv no_booster_df) []).1 ≠ Raise e) ∧
  (∃ fig msg,
     (main (Csv no_booster_df)
        [PieRequest "ALL"; ScatterRequest "ALL" [PyInt 0; PyInt 2600]]).1
     = Ok [Ok fig; Raise (ValueError msg)]).
Proof.
  split; [reflexivity|]. split; [reflexivity|]. split.
  - intros e. vm_compute. discriminate.
  - do 2 eexists. vm_compute. reflexivity.
Qed.

(** ** The examples of the specification *)

Example pie_all_sites :
  pie_of "ALL" sample_world ≡ₚ [(Some 0%Z, 1); (Some 1%Z, 2)].
Proof. vm_compute. apply perm_swap. Qed.

Example pie_ksc : pie_of "KSC" sample_world = [(Some 1%Z, 1)].
Proof. reflexivity. Qed.

Example scatter_all_sites :
  scatter_of "ALL" [PyInt 0; PyInt 2600] sample_world = Ok (take 2 sample_rows).
Proof. reflexivity. Qed.

Example scatter_ksc : scatter_of "KSC" [PyInt 0; PyInt 2600] sample_world = Ok [].
Proof. reflexivity. Qed.

Example scatter_empty_interval :
  scatter_of "ALL" [PyInt 2600; PyInt 0] sample_world = Ok [].
Proof. reflexivity. Qed.

Example scatter_three_bounds :
  scatter_of "ALL" [PyInt 0; PyInt 2600; PyInt 5000] sample_world
  = Raise (ValueError "too many values to unpack (expected 2)").
Proof. reflexivity. Qed.

Example scatter_traces_all_sites :
  figure_traces <$> (match (get_scatter_chart "ALL" [PyInt 0; PyInt 9000]
                              sample_world).1 with
                     | Ok fig => Some fig
                     | Raise _ => None
                     end)
  = Some [mkTrace "v1" (take 2 sample_rows); mkTrace "v2" (drop 2 sample_rows)].
Proof. reflexivity. Qed.

Example scatter_points_without_booster :
  scatter_points <$> (match (get_scatter_chart "KSC"
                               [PyFloat (kg 500); PyFloat (kg 3000)]
                               (world_of cleaned_gappy_df)).1 with
                      | Ok fig => Some fig
                      | Raise _ => None
                      end)
  = Some [mkRow (Some "KSC") (Some (kg 3000)) (Some 1%Z) (Some "v2")].
Proof. reflexivity. Qed.

Example round64_ties_to_even :
  (round64 (2 ^ 53 + 1) = 2 ^ 53 ∧ round64 (2 ^ 53 + 3) = 2 ^ 53 + 4 ∧
   round64 (2 ^ 53 + 2) = 2 ^ 53 + 2 ∧ round64 (- (2 ^ 53 + 1)) = - 2 ^ 53 ∧
   round64 9600 = 9600)%Z.
Proof. repeat split. Qed.

Example integer_bounds_are_exact :
  scatter_of "ALL" [PyInt (2 ^ 53); PyInt (2 ^ 53)] (world_of heavy_df) = Ok [].
Proof. reflexivity. Qed.

Example float_bounds_round_the_column :
  scatter_of "ALL" [PyFloat (kg (2 ^ 53)); PyFloat (kg (2 ^ 53))]
    (world_of heavy_df)
  = Ok (take 1 (rows heavy_df)).
Proof. reflexivity. Qed.

Example startup_gappy :
  (λ g, (rows (spacex_df g), min_payload g, max_payload g, launch_sites g))
    <$> (match (startup (Csv gappy_df) []).1 with
         | Ok g => Some g
         | Raise _ => None
         end)
  = Some ([ mkRow (Some "KSC") (Some (kg 3000)) (Some 1%Z) (Some "v2");
            mkRow (Some "CCAFS") (Some (kg 500)) (Some 0%Z) (Some "v1");
            mkRow (Some "KSC") (Some (kg 2500)) (Some 1%Z) None ],
          Some (kg 500), Some (kg 3000), [Some "KSC"; Some "CCAFS"]).
Proof. reflexivity. Qed.

Example startup_absent :
  startup Absent [] = (Raise FileNotFoundError,
                       [(ERROR, ErrorLoadingCsv FileNotFoundError)]).
Proof. reflexivity. Qed.

Example startup_no_class_column :
  (startup (Csv (mkDataFrame [col_site; col_payload; col_booster] sample_rows))
     []).1
  = Raise (KeyError [col_class]).
Proof. reflexivity. Qed.

(** ** When the callbacks raise *)

Lemma px_check_missing (df : DataFrame) (args : list string) :
  has_columns df args = false →
  px_check df args = Raise (ValueError "not the name of a column in data_frame").
Proof.
  intros H. unfold px_check.
  destruct (filter _ args) as [|c cs] eqn:E; [|done].
  apply missing_nil in E. congruence.
Qed.

Lemma select_site_columns (df : DataFrame) (site : string) :
  getitem_mask df (eq_scalar site (Launch_Site <$> rows df))
  = Ok (with_rows df
          (filter (λ r, bool_decide (Launch_Site r = Some site) = true)
             (rows df))).
Proof. by rewrite site_mask, getitem_mask_fmap. Qed.

(** X1. [get_pie_chart] returns a figure exactly when the frame has the
    column [class] and, for a site other than ["ALL"], the column
    [Launch Site].  Without [Launch Site] a site other than ["ALL"] raises
    [KeyError] for that label, before plotly is called; a frame without
    [class] is refused by [px.pie] with [ValueError]. *)
Theorem pie_chart_ok_iff (w : World) (site : string) :
  (is_ok (get_pie_chart site w).1 = true ↔
   has_column (spacex_df (globals w)) col_class = true ∧
   (site = "ALL" ∨ has_column (spacex_df (globals w)) col_site = true)) ∧
  (site ≠ "ALL" → has_column (spacex_df (globals w)) col_site = false →
   (get_pie_chart site w).1 = Raise (KeyError [col_site])) ∧
  (has_column (spacex_df (globals w)) col_class = false →
   site = "ALL" ∨ has_column (spacex_df (globals w)) col_site = true →
   ∃ msg, (get_pie_chart site w).1 = Raise (ValueError msg)).
Proof.
  unfold get_pie_chart, bind, logging, lift, read_global, ret.
  cbn [globals log].
  destruct (decide (site = "ALL")) as [->|Hne].
  - rewrite bool_decide_eq_true_2 by done. cbn [globals log].
    destruct (has_column (spacex_df (globals w)) col_class) eqn:Hc.
    + rewrite px_pie_ok by done. cbn. split_and!; try done. tauto.
    + unfold px_pie. rewrite px_check_missing
        by (rewrite <- not_true_iff_false, !has_columns_cons; intros [? _];
            congruence).
      cbn. split_and!; try done.
      * split; [done|]. by intros [? _].
      * intros _ _. by eexists.
  - rewrite bool_decide_eq_false_2 by done. cbn [globals log].
    unfold getcol.
    destruct (has_column (spacex_df (globals w)) col_site) eqn:Hs.
    + rewrite select_site_columns.
      destruct (has_column (spacex_df (globals w)) col_class) eqn:Hc.
      * rewrite px_pie_ok by done. cbn. split_and!; try done. tauto.
      * unfold px_pie. rewrite px_check_missing
          by (rewrite <- not_true_iff_false, !has_columns_cons; intros [? _];
              unfold has_column in *; cbn [columns with_rows] in *; congruence).
        cbn. split_and!; try done.
        -- split; [done|]. by intros [? _].
        -- intros _ _. by eexists.
    + cbn. split_and!; try done.
      * split; [done|]. intros [_ [?|?]]; done.
      * intros _ [?|?]; done.
Qed.

Lemma pie_chart_ok_iff_witness :
  (get_pie_chart "KSC" (world_of (mkDataFrame [col_class] sample_rows))).1
  = Raise (KeyError [col_site]) ∧
  (∃ msg,
     (get_pie_chart "KSC" (world_of (mkDataFrame [col_site] sample_rows))).1
     = Raise (ValueError msg)) ∧
  is_ok (get_pie_chart "KSC"
           (world_of (mkDataFrame [col_site; col_class] sample_rows))).1
  = true.
Proof.
  split_and!.
  - destruct (pie_chart_ok_iff
                (world_of (mkDataFrame [col_class] sample_rows)) "KSC")
      as (_ & Hkey & _).
    apply Hkey; [compute_done | reflexivity].
  - destruct (pie_chart_ok_iff
                (world_of (mkDataFrame [col_site] sample_rows)) "KSC")
      as (_ & _ & Hvalue).
    apply Hvalue; [reflexivity | right; reflexivity].
  - destruct (pie_chart_ok_iff
                (world_of (mkDataFrame [col_site; col_class] sample_rows))
                "KSC") as (Hok & _).
    apply Hok. split; [reflexivity | right; reflexivity].
Defined.

Lemma px_scatter_cases (df : DataFrame) (title : string) :
  (has_columns df [col_payload; col_class; col_booster] = true ∧
   px_scatter df col_payload col_class col_booster title
   = Ok (Scatter df (group_by_booster (rows df))
           col_payload col_class col_booster title)) ∨
  (has_columns df [col_payload; col_class; col_booster] = false ∧
   px_scatter df col_payload col_class col_booster title
   = Raise (ValueError "not the name of a column in data_frame")).
Proof.
  unfold px_scatter.
  destruct (has_columns df [col_payload; col_class; col_booster]) eqn:H.
  - left. by rewrite px_check_ok.
  - right. by rewrite px_check_missing.
Qed.

Lemma has_columns_select (df : DataFrame) (rs : list Row) (cs : list string) :
  has_columns (with_rows df rs) cs = has_columns df cs.
Proof. done. Qed.

Lemma scatter_columns (df : DataFrame) :
  has_columns df [col_payload; col_class; col_booster] = true ↔
  has_column df col_payload = true ∧ has_column df col_class = true ∧
  has_column df col_booster = true.
Proof. rewrite !has_columns_cons. unfold has_columns. cbn. tauto. Qed.

(** X2. [get_scatter_chart] returns a figure exactly when the range has two
    elements and the frame has the columns [Payload Mass (kg)], [class] and
    [Booster Version Category], and [Launch Site] too for a site other than
    ["ALL"].  With a two-element range, a frame without [Payload Mass (kg)]
    raises [KeyError] for that label; with it, a site other than ["ALL"] on
    a frame without [Launch Site] raises [KeyError] for that one; and a
    frame that passes the filters but lacks [class] or
    [Booster Version Category] is refused by [px.scatter] with
    [ValueError]. *)
Theorem scatter_chart_ok_iff
    (w : World) (site : string) (payload_range : list Number) :
  (is_ok (get_scatter_chart site payload_range w).1 = true ↔
   length payload_range = 2 ∧
   has_columns (spacex_df (globals w)) [col_payload; col_class; col_booster]
   = true ∧
   (site = "ALL" ∨ has_column (spacex_df (globals w)) col_site = true)) ∧
  (length payload_range = 2 →
   has_column (spacex_df (globals w)) col_payload = false →
   (get_scatter_chart site payload_range w).1 = Raise (KeyError [col_payload])) ∧
  (length payload_range = 2 →
   has_column (spacex_df (globals w)) col_payload = true →
   site ≠ "ALL" → has_column (spacex_df (globals w)) col_site = false →
   (get_scatter_chart site payload_range w).1 = Raise (KeyError [col_site])) ∧
  (length payload_range = 2 →
   has_column (spacex_df (globals w)) col_payload = true →
   site = "ALL" ∨ has_column (spacex_df (globals w)) col_site = true →
   has_columns (spacex_df (globals w)) [col_payload; col_class; col_booster]
   = false →
   ∃ msg, (get_scatter_chart site payload_range w).1 = Raise (ValueError msg)).
Proof.
  destruct (decide (length payload_range = 2)) as [Hlen|Hlen]; cycle 1.
  { split_and!; try done. split; [|by intros [? _]].
    unfold get_scatter_chart, bind, logging, lift.
    destruct payload_range as [|a [|b [|c l]]]; done. }
  destruct payload_range as [|low [|high [|c l]]]; try done. clear Hlen.
  unfold get_scatter_chart, bind, logging, lift, read_global, ret.
  cbn [unpack2 globals log]. unfold getcol.
  destruct (has_column (spacex_df (globals w)) col_payload) eqn:Hp; cycle 1.
  { cbn [fst is_ok]. split_and!; try done.
    split; [done|]. intros (_ & (? & _)%scatter_columns & _). congruence. }
  rewrite payload_mask, getitem_mask_fmap.
  destruct (decide (site = "ALL")) as [->|Hne].
  - rewrite bool_decide_eq_true_2 by done.
    match goal with |- context [px_scatter ?df _ _ _ ?t] =>
      destruct (px_scatter_cases df t) as [[Hc ->]|[Hc ->]] end;
      rewrite has_columns_select in Hc; cbn [fst is_ok].
    + split_and!; try done; [tauto|]. intros _ _ _ ?. congruence.
    + split_and!; try done.
      * split; [done|]. intros (_ & ? & _). congruence.
      * intros _ _ _ _. by eexists.
  - rewrite bool_decide_eq_false_2 by done.
    change (has_column (with_rows (spacex_df (globals w)) ?rs)
              col_site)
      with (has_column (spacex_df (globals w)) col_site).
    destruct (has_column (spacex_df (globals w)) col_site) eqn:Hs; cycle 1.
    { cbn [fst is_ok]. split_and!; try done.
      - split; [done|]. intros (_ & _ & [?|?]); done.
      - intros _ _ [?|?]; done. }
    rewrite select_site_columns, with_rows_with_rows.
    match goal with |- context [px_scatter ?df _ _ _ ?t] =>
      destruct (px_scatter_cases df t) as [[Hc ->]|[Hc ->]] end;
      rewrite has_columns_select in Hc; cbn [fst is_ok].
    + split_and!; try done; [tauto|]. intros _ _ _ ?. congruence.
    + split_and!; try done.
      * split; [done|]. intros (_ & ? & _). congruence.
      * intros _ _ _ _. by eexists.
Qed.

Lemma scatter_chart_ok_iff_witness :
  (get_scatter_chart "KSC" [PyInt 0; PyInt 9000]
     (world_of (mkDataFrame [col_site; col_class; col_booster] sample_rows))).1
  = Raise (KeyError [col_payload]) ∧
  (get_scatter_chart "KSC" [PyInt 0; PyInt 9000]
     (world_of (mkDataFrame [col_payload; col_class; col_booster] sample_rows))).1
  = Raise (KeyError [col_site]) ∧
  (∃ msg,
     (get_scatter_chart "KSC" [PyInt 0; PyInt 9000] (world_of no_booster_df)).1
     = Raise (ValueError msg)) ∧
  is_ok (get_scatter_chart "KSC" [PyInt 0; PyInt 9000] (world_of sample_df)).1 = true.
Proof.
  split_and!.
  - destruct (scatter_chart_ok_iff
                (world_of (mkDataFrame [col_site; col_class; col_booster]
                             sample_rows)) "KSC" [PyInt 0; PyInt 9000])
      as (_ & Hkey & _).
    apply Hkey; reflexivity.
  - destruct (scatter_chart_ok_iff
                (world_of (mkDataFrame [col_payload; col_class; col_booster]
                             sample_rows)) "KSC" [PyInt 0; PyInt 9000])
      as (_ & _ & Hkey & _).
    apply Hkey; [reflexivity | reflexivity | compute_done | reflexivity].
  - destruct (scatter_chart_ok_iff (world_of no_booster_df) "KSC"
                [PyInt 0; PyInt 9000]) as (_ & _ & _ & Hvalue).
    apply Hvalue; [reflexivity | reflexivity | right; reflexivity
                  | reflexivity].
  - destruct (scatter_chart_ok_iff (world_of sample_df) "KSC"
                [PyInt 0; PyInt 9000]) as (Hok & _).
    apply Hok. split_and!; [reflexivity | reflexivity | right; reflexivity].
Defined.

(** ** How the charts relate to each other *)

Lemma length_filter_fmap {A B} (f : A → B) (P : B → Prop)
    `{!∀ y, Decision (P y)} (l : list A) :
  length (filter P (f <$> l)) = length (filter (λ x, P (f x)) l).
Proof.
  induction l as [|x l IH]; [done|]. cbn [fmap list_fmap].
  destruct (decide (P (f x))) as [Hx|Hx].
  - rewrite !filter_cons_True by done. cbn [length]. by rewrite <- IH.
  - rewrite !filter_cons_False by done. exact IH.
Qed.

Lemma length_filter_split {A} (P Q : A → Prop)
    `{!∀ x, Decision (P x)} `{!∀ x, Decision (Q x)} (l : list A) :
  length (filter P l)
  = length (filter (λ x, P x ∧ Q x) l) + length (filter (λ x, P x ∧ ¬ Q x) l).
Proof.
  induction l as [|x l IH]; [done|].
  destruct (decide (P x)) as [Hp|Hp]; [destruct (decide (Q x)) as [Hq|Hq]|].
  - rewrite (filter_cons_True P), (filter_cons_True (λ x, P x ∧ Q x)),
      (filter_cons_False (λ x, P x ∧ ¬ Q x)) by tauto.
    cbn [length]. lia.
  - rewrite (filter_cons_True P), (filter_cons_False (λ x, P x ∧ Q x)),
      (filter_cons_True (λ x, P x ∧ ¬ Q x)) by tauto.
    cbn [length]. lia.
  - rewrite (filter_cons_False P), (filter_cons_False (λ x, P x ∧ Q x)),
      (filter_cons_False (λ x, P x ∧ ¬ Q x)) by tauto.
    exact IH.
Qed.

Lemma length_filter_keys {A K} `{EqDecision K} (f : A → K) (l : list A)
    (u : list K) :
  NoDup u →
  ∀ (P : A → Prop) (HP : ∀ x, Decision (P x)),
    (∀ x, x ∈ l → P x → f x ∈ u) →
    length (filter P l)
    = sum_list ((λ s, length (filter (λ x, P x ∧ f x = s) l)) <$> u).
Proof.
  induction 1 as [|s u Hs Hu IH]; intros P HP Hcover.
  - cbn. rewrite filter_none; [done|].
    intros x Hx HPx. by apply (elem_of_nil (f x)), Hcover.
  - cbn [fmap list_fmap sum_list].
    rewrite (length_filter_split P (λ x, f x = s)). f_equal.
    rewrite (IH (λ x, P x ∧ f x ≠ s) _).
    + f_equal. apply list_fmap_ext. intros i t Ht.
      f_equal. apply list_filter_iff. intros x. split; [tauto|].
      intros [HPx ->]. split_and!; try done. intros ->.
      by apply list_elem_of_lookup_2 in Ht.
    + intros x Hx [HPx Hne].
      pose proof (Hcover x Hx HPx) as [?|?]%elem_of_cons; done.
Qed.


Lemma pie_slice_count (w : World) (site : string) (k : option Z) :
  has_columns (spacex_df (globals w)) [col_site; col_class] = true →
  pie_slice site k w
  = length (filter (λ r, at_site site r ∧ class r = k)
              (rows (spacex_df (globals w)))).
Proof.
  intros [Hs Hc]%pie_columns. unfold pie_slice.
  destruct (get_pie_chart_run w site Hs Hc) as [title ->].
  unfold pie_slices. cbn [figure_data rows fst with_rows].
  rewrite value_counts_lookup, length_filter_fmap.
  rewrite list_filter_filter.
  rewrite (list_filter_iff _ (λ r, at_site site r ∧ class r = k))
    by (intros r; tauto).
  by destruct (length _).
Qed.

Lemma pie_total_count (w : World) (site : string) :
  has_columns (spacex_df (globals w)) [col_site; col_class] = true →
  pie_total site w
  = length (filter (at_site site) (rows (spacex_df (globals w)))).
Proof.
  intros [Hs Hc]%pie_columns. unfold pie_total.
  destruct (get_pie_chart_run w site Hs Hc) as [title ->].
  unfold pie_slices. cbn [figure_data rows fst with_rows].
  by rewrite total_value_counts, length_fmap.
Qed.

(** X3. The size of each slice of the pie chart is the number of records of
    the selection that carry the slice's class, and a class is a slice
    exactly when some record of the selection carries it. *)
Theorem pie_chart_counts (w : World) (site : string) (k : option Z) :
  has_columns (spacex_df (globals w)) [col_site; col_class] = true →
  ∃ fig,
    (get_pie_chart site w).1 = Ok fig ∧
    (∀ n, pie_slices fig !! k = Some n ↔
          (0 < n)%nat ∧
          n = length (filter (λ r, at_site site r ∧ class r = k)
                        (rows (spacex_df (globals w))))) ∧
    (is_Some (pie_slices fig !! k) ↔
     ∃ r, r ∈ rows (spacex_df (globals w)) ∧ at_site site r ∧ class r = k).
Proof.
  intros H. pose proof (pie_slice_count w site k H) as Hn.
  pose proof H as [Hs Hc]%pie_columns. unfold pie_slice in Hn.
  destruct (get_pie_chart_run w site Hs Hc) as [title Hrun].
  rewrite Hrun in *. cbn [fst] in *. eexists. split; [done|].
  pose proof (value_counts_positive
                (class <$> filter (at_site site) (rows (spacex_df (globals w))))
                k) as Hpos.
  unfold pie_slices in *. cbn [figure_data rows with_rows] in *.
  set (m := value_counts _) in *.
  set (l := filter (λ r, at_site site r ∧ class r = k) _) in *.
  split.
  - intros n. destruct (m !! k) as [n'|] eqn:E; cbn in Hn.
    + specialize (Hpos n' eq_refl). split; [intros [= <-]; by split|].
      intros [_ ->]. by rewrite Hn.
    + split; [done|]. intros [Hlt ->]. lia.
  - split.
    + intros [n E]. rewrite E in Hn. cbn in Hn. specialize (Hpos n E).
      destruct l as [|r l'] eqn:El; [cbn in Hn; lia|].
      assert (r ∈ l) as Hr by (rewrite El; left).
      apply list_elem_of_filter in Hr. exists r. tauto.
    + intros (r & Hr & Hsite & Hk).
      assert (r ∈ l) as Hin by (apply list_elem_of_filter; tauto).
      destruct (m !! k) as [n|]; [by eexists|]. cbn in Hn.
      destruct l; [by apply elem_of_nil in Hin|done].
Qed.

Lemma pie_chart_counts_witness :
  has_columns (spacex_df (globals sample_world)) [col_site; col_class] = true ∧
  ∃ fig,
    (get_pie_chart "CCAFS" sample_world).1 = Ok fig ∧
    (∀ n, pie_slices fig !! Some 1%Z = Some n ↔
          (0 < n)%nat ∧
          n = length (filter (λ r, at_site "CCAFS" r ∧ class r = Some 1%Z)
                        (rows (spacex_df (globals sample_world))))) ∧
    (is_Some (pie_slices fig !! Some 1%Z) ↔
     ∃ r, r ∈ rows (spacex_df (globals sample_world)) ∧
          at_site "CCAFS" r ∧ class r = Some 1%Z).
Proof.
  split; [reflexivity|].
  apply (pie_chart_counts sample_world "CCAFS" (Some 1%Z)). reflexivity.
Defined.

Lemma all_Some_omap {A} (l : list (option A)) :
  (∀ x, x ∈ l → is_Some x) → l = Some <$> omap id l.
Proof.
  induction l as [|x l IH]; intros H; [done|].
  destruct (H x) as [a ->]; [left|]. cbn. f_equal.
  apply IH. intros y Hy. apply H. by right.
Qed.

(** X4. On a frame in which every record has a launch site and no site is
    called ["ALL"], the pie chart for ["ALL"] is the sum of the pie charts
    of the launch sites: slice by slice, and in total. *)
Theorem pie_all_sums_sites (w : World) (k : option Z) :
  has_columns (spacex_df (globals w)) [col_site; col_class] = true →
  (∀ r, r ∈ rows (spacex_df (globals w)) → is_Some (Launch_Site r)) →
  "ALL" ∉ site_names (spacex_df (globals w)) →
  pie_slice "ALL" k w
  = sum_list ((λ site, pie_slice site k w)
                <$> site_names (spacex_df (globals w))) ∧
  pie_total "ALL" w
  = sum_list ((λ site, pie_total site w)
                <$> site_names (spacex_df (globals w))).
Proof.
  intros H Hsome Hall.
  set (df := spacex_df (globals w)) in *.
  assert (distinctSites df = Some <$> site_names df) as Hnames.
  { apply all_Some_omap. intros s.
    unfold distinctSites. rewrite elem_of_unique.
    intros (r & -> & Hr)%list_elem_of_fmap. by apply Hsome. }
  assert (∀ (P : Row → Prop) (HP : ∀ r, Decision (P r)),
            length (filter P (rows df))
            = sum_list ((λ site, length (filter
                                   (λ r, P r ∧ Launch_Site r = Some site)
                                   (rows df)))
                          <$> site_names df)) as Hsum.
  { intros P HP.
    rewrite (length_filter_keys Launch_Site (rows df) (distinctSites df)).
    - rewrite Hnames at 1. by rewrite <- list_fmap_compose.
    - apply NoDup_unique_from.
    - intros r Hr _. unfold distinctSites. rewrite elem_of_unique.
      by apply list_elem_of_fmap_2. }
  assert (∀ site, site ∈ site_names df → ∀ r,
            at_site site r ↔ Launch_Site r = Some site) as Hsite.
  { intros site Hin r. unfold at_site. split; [|tauto].
    intros [->|?]; done. }
  split.
  - rewrite pie_slice_count by done. fold df.
    rewrite (list_filter_iff _ (λ r, class r = k))
      by (intros r; unfold at_site; tauto).
    rewrite Hsum. f_equal. apply list_fmap_ext. intros i site Hi.
    rewrite pie_slice_count by done. fold df. f_equal.
    apply list_filter_iff. intros r.
    rewrite (Hsite site (list_elem_of_lookup_2 _ _ _ Hi)). tauto.
  - rewrite pie_total_count by done. fold df.
    rewrite (list_filter_iff _ (λ r, True))
      by (intros r; unfold at_site; tauto).
    rewrite Hsum. f_equal. apply list_fmap_ext. intros i site Hi.
    rewrite pie_total_count by done. fold df. f_equal.
    apply list_filter_iff. intros r.
    rewrite (Hsite site (list_elem_of_lookup_2 _ _ _ Hi)). tauto.
Qed.

Lemma pie_all_sums_sites_witness :
  has_columns (spacex_df (globals sample_world)) [col_site; col_class] = true ∧
  (∀ r, r ∈ rows (spacex_df (globals sample_world)) →
        is_Some (Launch_Site r)) ∧
  ("ALL" ∉ site_names (spacex_df (globals sample_world))) ∧
  pie_slice "ALL" (Some 1%Z) sample_world
  = sum_list ((λ site, pie_slice site (Some 1%Z) sample_world)
                <$> site_names (spacex_df (globals sample_world))) ∧
  pie_total "ALL" sample_world
  = sum_list ((λ site, pie_total site sample_world)
                <$> site_names (spacex_df (globals sample_world))).
Proof.
  assert (∀ r, r ∈ rows (spacex_df (globals sample_world)) →
               is_Some (Launch_Site r)) as Hsome.
  { apply Forall_forall. compute_done. }
  split; [reflexivity|]. split; [exact Hsome|]. split; [compute_done|].
  apply (pie_all_sums_sites sample_world (Some 1%Z));
    [reflexivity | exact Hsome | compute_done].
Defined.




(** ** What a successful load guarantees *)

Lemma startup_Ok_inv (f : File) (lg0 lg : list LogRecord) (g : Globals) :
  startup f lg0 = (Ok g, lg) →
  ∃ table rs,
    f = Csv table ∧ has_columns table cleaned_columns = true ∧
    rs = filter complete (rows table) ∧
    g = mkGlobals (with_rows table rs)
          (series_max (Payload_Mass <$> rs))
          (series_min (Payload_Mass <$> rs))
          (unique (Launch_Site <$> rs))
          ((Some "All Sites", Some "ALL")
             :: ((λ site, (site, site)) <$> unique (Launch_Site <$> rs))) ∧
    lg = lg0 ++ [(INFO, CsvLoaded); (INFO, DataCleaned (length rs));
                 (INFO, PayloadRange (series_min (Payload_Mass <$> rs))
                          (series_max (Payload_Mass <$> rs)))].
Proof.
  intros H. destruct (loadable f) eqn:E.
  - apply loadable_inv in E as (table & -> & Hcols).
    pose proof (startup_ok table lg0 Hcols) as Hrun. cbv zeta in Hrun.
    rewrite (list_filter_iff _ complete) in Hrun
      by (intros r; apply notna_all_complete).
    rewrite Hrun in H. injection H as <- <-.
    exists table. by eexists.
  - destruct (startup_fails f lg0 E) as (e & lg' & He). congruence.
Qed.

Lemma complete_rows_payload (rs : list Row) :
  (∀ r, r ∈ rs → complete r) →
  ∀ r, r ∈ rs → ∃ p, Payload_Mass r = Some p ∧ Some p ∈ Payload_Mass <$> rs.
Proof.
  intros Hc r Hr. destruct (Hc r Hr) as ([p Hp] & _).
  exists p. split; [done|]. rewrite <- Hp. by apply list_elem_of_fmap_2.
Qed.

Lemma filter_complete_rows (rs : list Row) :
  ∀ r, r ∈ filter complete rs → complete r.
Proof. by intros r [? _]%list_elem_of_filter. Qed.


(** X7. After a successful load, the slider's bounds are in order and
    enclose every record: when they are numbers, [min_payload ≤ max_payload]
    and every record's payload mass lies between them.  A bound is NaN
    exactly when the cleaned data set has no record. *)
Theorem startup_bounds (f : File) (lg0 lg : list LogRecord) (g : Globals) :
  startup f lg0 = (Ok g, lg) →
  (min_payload g = None ↔ rows (spacex_df g) = []) ∧
  (max_payload g = None ↔ rows (spacex_df g) = []) ∧
  (∀ lo hi, min_payload g = Some lo → max_payload g = Some hi →
     (lo ≤ hi)%Qc ∧ ∀ r, r ∈ rows (spacex_df g) → in_range lo hi r).
Proof.
  intros (table & rs & -> & Hcols & Hrs & -> & _)%startup_Ok_inv.
  cbn [min_payload max_payload spacex_df rows with_rows].
  pose proof (filter_complete_rows (rows table)) as Hc. rewrite <- Hrs in Hc.
  pose proof (complete_rows_payload rs Hc) as Hp.
  pose proof (series_max_spec (Payload_Mass <$> rs)) as Hmax.
  pose proof (series_min_spec (Payload_Mass <$> rs)) as Hmin.
  clear Hrs Hc. split_and!.
  - split.
    + intros E. rewrite E in Hmin. destruct rs as [|r rs']; [done|].
      destruct (Hp r) as (p & _ & Hin); [left|]. by apply Hmin in Hin.
    + intros ->. done.
  - split.
    + intros E. rewrite E in Hmax. destruct rs as [|r rs']; [done|].
      destruct (Hp r) as (p & _ & Hin); [left|]. by apply Hmax in Hin.
    + intros ->. done.
  - intros lo hi Elo Ehi. rewrite Elo in Hmin. rewrite Ehi in Hmax.
    destruct Hmin as [Hlo Hmin], Hmax as [Hhi Hmax]. split.
    + by apply Hmin.
    + intros r Hr. destruct (Hp r Hr) as (p & Hpr & Hin).
      unfold in_range. rewrite Hpr. split; [by apply Hmin|by apply Hmax].
Qed.

Lemma startup_bounds_witness :
  startup (Csv sample_df) []
  = (Ok (globals sample_world),
     [(INFO, CsvLoaded); (INFO, DataCleaned 3);
      (INFO, PayloadRange (Some (kg 500)) (Some (kg 3000)))]) ∧
  (min_payload (globals sample_world) = None ↔
   rows (spacex_df (globals sample_world)) = []) ∧
  (max_payload (globals sample_world) = None ↔
   rows (spacex_df (globals sample_world)) = []) ∧
  (∀ lo hi,
     min_payload (globals sample_world) = Some lo →
     max_payload (globals sample_world) = Some hi →
     (lo ≤ hi)%Qc ∧
     ∀ r, r ∈ rows (spacex_df (globals sample_world)) → in_range lo hi r).
Proof.
  split; [reflexivity|].
  apply (startup_bounds (Csv sample_df) []
           [(INFO, CsvLoaded); (INFO, DataCleaned 3);
            (INFO, PayloadRange (Some (kg 500)) (Some (kg 3000)))]
           (globals sample_world)).
  reflexivity.
Defined.



Lemma startup_columns (f : File) (lg0 lg : list LogRecord) (g : Globals) :
  startup f lg0 = (Ok g, lg) →
  has_column (spacex_df g) col_payload = true ∧
  has_column (spacex_df g) col_site = true ∧
  has_column (spacex_df g) col_class = true.
Proof.
  intros (table & rs & -> & Hcols & _ & -> & _)%startup_Ok_inv.
  cbn [spacex_df]. revert Hcols. unfold cleaned_columns.
  rewrite !has_columns_cons. unfold has_column. cbn [columns with_rows]. tauto.
Qed.

Lemma filter_idemp {A} (P : A → Prop) `{!∀ x, Decision (P x)} (l : list A) :
  filter P (filter P l) = filter P l.
Proof.
  rewrite list_filter_filter. apply list_filter_iff. intros x. tauto.
Qed.

(** X9. Cleaning is idempotent: loading the cleaned frame again gives the
    same globals and the same log lines as the load that produced it. *)
Theorem startup_reload (f : File) (lg0 lg : list LogRecord) (g : Globals) :
  startup f lg0 = (Ok g, lg) →
  startup (Csv (spacex_df g)) lg0 = (Ok g, lg).
Proof.
  intros (table & rs & -> & Hcols & Hrs & -> & ->)%startup_Ok_inv.
  cbn [spacex_df].
  rewrite (startup_ok (with_rows table rs) lg0) by exact Hcols.
  cbn [rows columns with_rows].
  rewrite (list_filter_iff _ complete) by (intros r; apply notna_all_complete).
  assert (filter complete rs = rs) as -> by (rewrite Hrs; apply filter_idemp).
  reflexivity.
Qed.

Lemma startup_reload_witness :
  startup (Csv gappy_df) []
  = (Ok (mkGlobals
           (mkDataFrame four_columns (filter complete (rows gappy_df)))
           (Some (kg 3000)) (Some (kg 500)) [Some "KSC"; Some "CCAFS"]
           [(Some "All Sites", Some "ALL"); (Some "KSC", Some "KSC");
            (Some "CCAFS", Some "CCAFS")]),
     [(INFO, CsvLoaded); (INFO, DataCleaned 3);
      (INFO, PayloadRange (Some (kg 500)) (Some (kg 3000)))]) ∧
  startup (Csv (mkDataFrame four_columns (filter complete (rows gappy_df)))) []
  = (Ok (mkGlobals
           (mkDataFrame four_columns (filter complete (rows gappy_df)))
           (Some (kg 3000)) (Some (kg 500)) [Some "KSC"; Some "CCAFS"]
           [(Some "All Sites", Some "ALL"); (Some "KSC", Some "KSC");
            (Some "CCAFS", Some "CCAFS")]),
     [(INFO, CsvLoaded); (INFO, DataCleaned 3);
      (INFO, PayloadRange (Some (kg 500)) (Some (kg 3000)))]).
Proof.
  split; [reflexivity|].
  apply (startup_reload (Csv gappy_df) []
           [(INFO, CsvLoaded); (INFO, DataCleaned 3);
            (INFO, PayloadRange (Some (kg 500)) (Some (kg 3000)))]
           (mkGlobals
              (mkDataFrame four_columns (filter complete (rows gappy_df)))
              (Some (kg 3000)) (Some (kg 500)) [Some "KSC"; Some "CCAFS"]
              [(Some "All Sites", Some "ALL"); (Some "KSC", Some "KSC");
               (Some "CCAFS", Some "CCAFS")])).
  reflexivity.
Defined.

(** X10. After a successful load the dropdown offers ["ALL"] first and then
    one option per launch site, label and value alike; and every site it
    offers has at least one launch: its pie chart counts a record. *)
Theorem dropdown_sites_have_launches
    (f : File) (lg0 lg : list LogRecord) (g : Globals) :
  startup f lg0 = (Ok g, lg) →
  dropdown_options g
  = (Some "All Sites", Some "ALL")
      :: ((λ site, (Some site, Some site)) <$> site_names (spacex_df g)) ∧
  NoDup (site_names (spacex_df g)) ∧
  ∀ site, site ∈ site_names (spacex_df g) →
          (0 < pie_total site (mkWorld g lg))%nat.
Proof.
  intros Hrun.
  destruct (startup_columns _ _ _ _ Hrun) as (_ & Hs & Hc).
  pose proof Hrun as (table & rs & -> & Hcols & Hrs & -> & _)%startup_Ok_inv.
  cbn [spacex_df dropdown_options].
  unfold site_names, distinctSites. cbn [rows with_rows].
  assert (∀ s, s ∈ unique (Launch_Site <$> rs) → is_Some s) as Hsome.
  { intros s. rewrite elem_of_unique.
    intros (r & -> & Hr)%list_elem_of_fmap.
    rewrite Hrs in Hr. by apply filter_complete_rows in Hr as (_ & ? & _). }
  pose proof (all_Some_omap _ Hsome) as Hnames. split_and!.
  - f_equal. rewrite Hnames at 1. rewrite <- list_fmap_compose.
    by apply list_fmap_ext.
  - pose proof (NoDup_unique_from [] (Launch_Site <$> rs)) as Hnd.
    fold (unique (Launch_Site <$> rs)) in Hnd. rewrite Hnames in Hnd.
    by apply NoDup_fmap in Hnd; [|apply _].
  - intros site Hin.
    assert (Some site ∈ unique (Launch_Site <$> rs)) as Hin'.
    { rewrite Hnames. by apply list_elem_of_fmap_2. }
    apply elem_of_unique in Hin' as (r & Hsite & Hr)%list_elem_of_fmap.
    rewrite pie_total_count
      by (cbn [globals spacex_df]; rewrite !has_columns_cons; done).
    cbn [globals spacex_df rows with_rows].
    assert (r ∈ filter (at_site site) rs) as Hf
      by (apply list_elem_of_filter; split; [by right|done]).
    destruct (filter (at_site site) rs); [by apply elem_of_nil in Hf|].
    cbn. lia.
Qed.

Lemma dropdown_sites_have_launches_witness :
  startup (Csv sample_df) []
  = (Ok (globals sample_world),
     [(INFO, CsvLoaded); (INFO, DataCleaned 3);
      (INFO, PayloadRange (Some (kg 500)) (Some (kg 3000)))]) ∧
  dropdown_options (globals sample_world)
  = (Some "All Sites", Some "ALL")
      :: ((λ site, (Some site, Some site))
            <$> site_names (spacex_df (globals sample_world))) ∧
  NoDup (site_names (spacex_df (globals sample_world))).
Proof.
  split; [reflexivity|].
  destruct (dropdown_sites_have_launches (Csv sample_df) []
              [(INFO, CsvLoaded); (INFO, DataCleaned 3);
               (INFO, PayloadRange (Some (kg 500)) (Some (kg 3000)))]
              (globals sample_world)) as (Hopts & Hnd & _); [reflexivity|].
  split; assumption.
Defined.

(** X11. When the top level raises, it is for one of two reasons.  Either
    [read_csv] raised: that exception propagates and the log gains one
    ERROR line that carries it.  Or the table was read and lacks some of
    the three cleaned columns: the exception is a [KeyError] that lists
    exactly the cleaned columns the table lacks, and the log gains only the
    line of the successful read.  The top level never raises
    [ValueError]. *)
Theorem startup_raises (f : File) (lg0 lg : list LogRecord) (e : exn) :
  startup f lg0 = (Raise e, lg) →
  (read_csv f = Raise e ∧ lg = lg0 ++ [(ERROR, ErrorLoadingCsv e)]) ∨
  (∃ table missing,
     f = Csv table ∧ e = KeyError missing ∧ missing ≠ [] ∧
     (∀ c, c ∈ missing ↔ c ∈ cleaned_columns ∧ c ∉ columns table) ∧
     lg = lg0 ++ [(INFO, CsvLoaded)]).
Proof.
  unfold startup, load_csv, bind, lift, ret, logging_top.
  destruct f as [| | |table]; cbn [read_csv];
    try (intros [= <- <-]; by left).
  fold cleaned_columns. unfold dropna.
  destruct (filter (λ c, has_column table c = false) cleaned_columns)
    as [|c cs] eqn:E.
  - unfold getcol. cbn [columns with_rows].
    apply missing_nil in E.
    revert E. unfold cleaned_columns. rewrite !has_columns_cons.
    unfold has_column. cbn [columns with_rows]. intros (-> & -> & _). done.
  - intros [= <- <-]. right. exists table, (c :: cs).
    split_and!; try done.
    intros c'. rewrite <- E, list_elem_of_filter.
    unfold has_column. rewrite bool_decide_eq_false. tauto.
Qed.

Lemma startup_raises_witness :
  startup (Csv (mkDataFrame [col_site; col_booster] sample_rows)) []
  = (Raise (KeyError [col_payload; col_class]), [(INFO, CsvLoaded)]) ∧
  ((read_csv (Csv (mkDataFrame [col_site; col_booster] sample_rows))
    = Raise (KeyError [col_payload; col_class]) ∧
    [(INFO, CsvLoaded)]
    = [] ++ [(ERROR, ErrorLoadingCsv (KeyError [col_payload; col_class]))]) ∨
   (∃ table missing,
      Csv (mkDataFrame [col_site; col_booster] sample_rows) = Csv table ∧
      KeyError [col_payload; col_class] = KeyError missing ∧ missing ≠ [] ∧
      (∀ c, c ∈ missing ↔ c ∈ cleaned_columns ∧ c ∉ columns table) ∧
      [(INFO, CsvLoaded)] = [] ++ [(INFO, CsvLoaded)])).
Proof.
  split; [reflexivity|].
  apply (startup_raises (Csv (mkDataFrame [col_site; col_booster] sample_rows))
           [] [(INFO, CsvLoaded)] (KeyError [col_payload; col_class])).
  reflexivity.
Defined.

(** ** Serving requests *)

Lemma dispatch_determined (rq : Request) : dataset_determined (dispatch rq).
Proof.
  destruct rq;
    [apply get_pie_chart_determined|apply get_scatter_chart_determined].
Qed.

Lemma app_run_responses_from (rqs : list Request) (w w' : World) :
  same_dataset w' w →
  (app_run rqs w').1 = (λ rq, (dispatch rq w).1) <$> rqs.
Proof.
  revert w'. induction rqs as [|rq rqs IH]; intros w' Hw; [done|].
  cbn [app_run fmap list_fmap].
  destruct (dispatch_determined rq w' w Hw) as [Hr Hs].
  destruct (dispatch rq w') as [resp w1] eqn:E. cbn [fst snd] in Hr, Hs.
  assert (same_dataset w1 w) as Hw1.
  { unfold same_dataset in *.
    pose proof (dispatch_frame rq w') as Hf. rewrite E in Hf. cbn in Hf.
    by rewrite Hf. }
  specialize (IH w1 Hw1).
  destruct (app_run rqs w1) as [resps w2]. cbn [fst] in *.
  by rewrite Hr, IH.
Qed.

Lemma app_run_responses (rqs : list Request) (w : World) :
  (app_run rqs w).1 = (λ rq, (dispatch rq w).1) <$> rqs.
Proof. by apply app_run_responses_from. Qed.

(** X12. Serving is stateless: the response to a request is what its
    callback returns in the state the server started in, whatever was
    served before it.  So there is one response per request, in order, and
    the responses to a batch do not depend on the batch before it. *)
Theorem app_run_stateless (rqs1 rqs2 : list Request) (w : World) :
  (app_run rqs1 w).1 = (λ rq, (dispatch rq w).1) <$> rqs1 ∧
  length (app_run rqs1 w).1 = length rqs1 ∧
  (app_run (rqs1 ++ rqs2) w).1 = (app_run rqs1 w).1 ++ (app_run rqs2 w).1 ∧
  (app_run rqs2 (app_run rqs1 w).2).1 = (app_run rqs2 w).1.
Proof.
  split_and!.
  - apply app_run_responses.
  - by rewrite app_run_responses, length_fmap.
  - by rewrite !app_run_responses, fmap_app.
  - rewrite (app_run_responses rqs2 w).
    apply app_run_responses_from, app_run_same_dataset.
Qed.

Lemma silent_ret {A} (a : A) : silent (ret a).
Proof. done. Qed.

Lemma silent_lift {A} (r : result A) : silent (lift r).
Proof. done. Qed.

Lemma silent_read_global {A} (name : Globals → A) : silent (read_global name).
Proof. done. Qed.

Lemma silent_bind {A B} (c : M World A) (k : A → M World B) :
  silent c → (∀ a, silent (k a)) → silent (bind c k).
Proof.
  intros Hc Hk w. unfold bind. specialize (Hc w).
  destruct (c w) as [[a|e] w']; cbn in *; [rewrite Hk|]; done.
Qed.

Lemma silent_if {A} (b : bool) (c1 c2 : M World A) :
  silent c1 → silent c2 → silent (if b then c1 else c2).
Proof. by destruct b. Qed.

Create HintDb silent.
#[local] Hint Resolve silent_ret silent_lift silent_read_global : silent.

Ltac silent_step :=
  first [ apply silent_bind; [|intros ?]
        | apply silent_if
        | match goal with |- silent (let '(_, _) := ?p in _) =>
            destruct p end
        | solve [auto with silent] ].

Lemma logged_then_silent {A} (lv : Level) (msg : Message) (k : M World A)
    (w : World) :
  silent k →
  (bind (logging lv msg) (λ _, k) w).2
  = mkWorld (globals w) (log w ++ [(lv, msg)]).
Proof. intros Hk. unfold bind, logging. by rewrite Hk. Qed.

Lemma dispatch_world (rq : Request) (w : World) :
  (dispatch rq w).2 = mkWorld (globals w) (log w ++ [debug_record rq]).
Proof.
  destruct rq as [site|site payload_range]; cbn [dispatch debug_record].
  - unfold get_pie_chart. apply logged_then_silent. repeat silent_step.
  - unfold get_scatter_chart. apply logged_then_silent. repeat silent_step.
Qed.

(** X13. The callbacks write the log and nothing else, one line each: a
    call of either callback, returning or raising, leaves its DEBUG line
    at the end of the log and the rest of the state as it was; after a run
    of requests the log is the old log followed by one line per request,
    in the order served. *)
Theorem app_run_log (rqs : list Request) (w : World) :
  (app_run rqs w).2 = mkWorld (globals w) (log w ++ (debug_record <$> rqs)) ∧
  (∀ site,
     (get_pie_chart site w).2
     = mkWorld (globals w) (log w ++ [(DEBUG, GeneratingPie site)])) ∧
  (∀ site payload_range,
     (get_scatter_chart site payload_range w).2
     = mkWorld (globals w)
         (log w ++ [(DEBUG, GeneratingScatter site payload_range)])).
Proof.
  split_and!.
  - revert w. induction rqs as [|rq rqs IH]; intros w.
    + cbn. rewrite app_nil_r. by destruct w.
    + cbn [app_run fmap list_fmap].
      pose proof (dispatch_world rq w) as Hd.
      destruct (dispatch rq w) as [resp w1]. cbn [snd] in Hd. subst w1.
      specialize (IH (mkWorld (globals w) (log w ++ [debug_record rq]))).
      destruct (app_run rqs _) as [resps w2]. cbn [snd] in *.
      rewrite IH. cbn [globals log]. by rewrite <- app_assoc.
  - intros site. apply (dispatch_world (PieRequest site)).
  - intros site payload_range.
    apply (dispatch_world (ScatterRequest site payload_range)).
Qed.

(** X14. Once the top level has loaded a table with the three cleaned
    columns, the process answers every request: one response per request,
    a figure for every pie request whatever the site, and, when the table
    has the booster column as well, a figure for every scatter request
    with two bounds. *)
Theorem main_serves (f : File) (rqs : list Request) :
  loadable f = true →
  ∃ resps lg,
    main f rqs = (Ok resps, lg) ∧
    length resps = length rqs ∧
    (∀ i site, rqs !! i = Some (PieRequest site) →
               ∃ fig, resps !! i = Some (Ok fig)) ∧
    (well_formed f = true →
     ∀ i site low high,
       rqs !! i = Some (ScatterRequest site [low; high]) →
       ∃ fig, resps !! i = Some (Ok fig)).
Proof.
  intros (table & -> & Hcols)%loadable_inv. unfold main.
  pose proof (startup_ok table [] Hcols) as Hrun. cbv zeta in Hrun.
  destruct (startup_columns _ _ _ _ Hrun) as (Hp & Hs & Hc).
  rewrite Hrun. clear Hrun.
  match goal with |- context [app_run rqs ?w0] => set (w := w0) in * end.
  pose proof (app_run_responses rqs w) as Hresp.
  destruct (app_run rqs w) as [resps w']. cbn [fst] in Hresp. subst resps.
  do 2 eexists. split; [done|]. split_and!.
  - by rewrite length_fmap.
  - intros i site Hi. rewrite list_lookup_fmap, Hi. cbn [fmap option_fmap
      option_map dispatch].
    destruct (get_pie_chart_run w site Hs Hc) as [title ->]. by eexists.
  - intros Hwf i site low high Hi.
    rewrite list_lookup_fmap, Hi. cbn [fmap option_fmap option_map dispatch].
    assert (Dataset (spacex_df (globals w)) = true) as Hd by exact Hwf.
    destruct (get_scatter_chart_run w site low high Hd) as [title ->].
    by eexists.
Qed.

Lemma main_serves_witness :
  loadable (Csv no_booster_df) = true ∧
  ∃ resps lg,
    main (Csv no_booster_df) [PieRequest "KSC"; PieRequest "nowhere"]
    = (Ok resps, lg) ∧
    length resps = length [PieRequest "KSC"; PieRequest "nowhere"].
Proof.
  split; [reflexivity|].
  destruct (main_serves (Csv no_booster_df)
              [PieRequest "KSC"; PieRequest "nowhere"])
    as (resps & lg & Hmain & Hlen & _); [reflexivity|].
  exists resps, lg. split; assumption.
Defined.

(** ** The page follows its controls *)

Lemma same_globals_dataset (w w0 : World) :
  globals w = globals w0 → same_dataset w w0.
Proof. unfold same_dataset. by intros ->. Qed.

Lemma update_pie_run (p : Page) (w w0 : World) :
  has_columns (spacex_df (globals w0)) [col_site; col_class] = true →
  globals w = globals w0 →
  ∃ fig w',
    (get_pie_chart (site_dropdown p) w0).1 = Ok fig ∧
    globals w' = globals w0 ∧
    update_pie p w
    = (mkPage (site_dropdown p) (payload_slider p) (Some fig)
         (success_payload_scatter_chart p), w').
Proof.
  intros [Hs Hc]%pie_columns Hw. unfold update_pie.
  destruct (get_pie_chart_determined (site_dropdown p) w w0
              (same_globals_dataset _ _ Hw)) as [Hr _].
  pose proof (get_pie_chart_frame (site_dropdown p) w) as Hf.
  destruct (get_pie_chart_run w0 (site_dropdown p) Hs Hc) as [title Hrun].
  rewrite Hrun in Hr. cbn [fst] in Hr.
  destruct (get_pie_chart (site_dropdown p) w) as [r w'].
  cbn [fst snd] in Hr, Hf. subst r. rewrite Hrun.
  do 2 eexists. split; [done|]. split; [|done]. congruence.
Qed.

Lemma update_scatter_run (p : Page) (w w0 : World) (low high : Number) :
  Dataset (spacex_df (globals w0)) = true →
  globals w = globals w0 →
  payload_slider p = [low; high] →
  ∃ fig w',
    (get_scatter_chart (site_dropdown p) [low; high] w0).1 = Ok fig ∧
    globals w' = globals w0 ∧
    update_scatter p w
    = (mkPage (site_dropdown p) [low; high] (success_pie_chart p) (Some fig),
       w').
Proof.
  intros Hd Hw Hsl. unfold update_scatter. rewrite Hsl.
  destruct (get_scatter_chart_determined (site_dropdown p) [low; high] w w0
              (same_globals_dataset _ _ Hw)) as [Hr _].
  pose proof (get_scatter_chart_frame (site_dropdown p) [low; high] w) as Hf.
  destruct (get_scatter_chart_run w0 (site_dropdown p) low high Hd)
    as [title Hrun].
  rewrite Hrun in Hr. cbn [fst] in Hr.
  destruct (get_scatter_chart (site_dropdown p) [low; high] w) as [r w'].
  cbn [fst snd] in Hr, Hf. subst r. rewrite Hrun.
  do 2 eexists. split; [done|]. split; [|done]. congruence.
Qed.

Lemma Dataset_pie_columns (df : DataFrame) :
  Dataset df = true → has_columns df [col_site; col_class] = true.
Proof.
  intros (Hs & _ & Hc & _)%Dataset_columns. rewrite !has_columns_cons. done.
Qed.

Lemma open_page_up_to_date (low high : Number) (w : World) :
  Dataset (spacex_df (globals w)) = true →
  globals (open_page low high w).2 = globals w ∧
  (∃ lo hi, payload_slider (open_page low high w).1 = [lo; hi]) ∧
  up_to_date (open_page low high w).1 w.
Proof.
  intros Hd. pose proof (Dataset_pie_columns _ Hd) as Hd'.
  unfold open_page.
  destruct (update_pie_run (mkPage default_site [low; high] None None)
              w w Hd' eq_refl) as (fig & w1 & Hfig & Hw1 & ->).
  cbv beta iota zeta.
  cbn [site_dropdown payload_slider success_pie_chart
       success_payload_scatter_chart].
  destruct (update_scatter_run
              (mkPage default_site [low; high] (Some fig) None)
              w1 w low high Hd Hw1 eq_refl)
    as (fig' & w2 & Hfig' & Hw2 & ->).
  cbn [fst snd]. split; [done|]. split; [by eauto|]. split; by eexists.
Qed.

Lemma handle_up_to_date (ev : Event) (p : Page) (w w0 : World) :
  Dataset (spacex_df (globals w0)) = true →
  globals w = globals w0 →
  (∃ low high, payload_slider p = [low; high]) →
  up_to_date p w0 →
  globals (handle ev p w).2 = globals w0 ∧
  (∃ low high, payload_slider (handle ev p w).1 = [low; high]) ∧
  up_to_date (handle ev p w).1 w0.
Proof.
  intros Hd Hw (low & high & Hsl) [Hpie Hsc].
  pose proof (Dataset_pie_columns _ Hd) as Hd'.
  destruct ev as [site|low' high']; cbn [handle].
  - destruct (update_pie_run
                (mkPage site (payload_slider p) (success_pie_chart p)
                   (success_payload_scatter_chart p)) w w0 Hd' Hw)
      as (fig & w1 & Hfig & Hw1 & ->).
    cbv beta iota zeta.
    cbn [site_dropdown payload_slider success_pie_chart
         success_payload_scatter_chart].
    destruct (update_scatter_run
                (mkPage site (payload_slider p) (Some fig)
                   (success_payload_scatter_chart p)) w1 w0 low high Hd Hw1 Hsl)
      as (fig' & w2 & Hfig' & Hw2 & ->).
    cbn [fst snd site_dropdown]. split; [done|]. split; [by eauto|].
    split; by eexists.
  - destruct (update_scatter_run
                (mkPage (site_dropdown p) [low'; high'] (success_pie_chart p)
                   (success_payload_scatter_chart p)) w w0 low' high' Hd Hw
                eq_refl)
      as (fig' & w2 & Hfig' & Hw2 & ->).
    cbn [fst snd site_dropdown]. split; [done|]. split; [by eauto|].
    split; [exact Hpie|by eexists].
Qed.

Lemma browse_up_to_date (evs : list Event) (p : Page) (w w0 : World) :
  Dataset (spacex_df (globals w0)) = true →
  globals w = globals w0 →
  (∃ low high, payload_slider p = [low; high]) →
  up_to_date p w0 →
  globals (browse evs p w).2 = globals w0 ∧ up_to_date (browse evs p w).1 w0.
Proof.
  intros Hd. revert p w.
  induction evs as [|ev evs IH]; intros p w Hw Hsl Hup; [done|].
  cbn [browse].
  destruct (handle_up_to_date ev p w w0 Hd Hw Hsl Hup) as (Hw' & Hsl' & Hup').
  destruct (handle ev p w) as [p' w']. by apply IH.
Qed.

(** X15. On a data set, the page always shows what its controls select:
    when it opens, and after any sequence of site selections and slider
    moves, the pie graph holds the figure [get_pie_chart] returns for the
    dropdown's current value and the scatter graph the figure
    [get_scatter_chart] returns for the dropdown's and the slider's current
    values; and the data set is still the one the page opened with. *)
Theorem page_up_to_date (evs : list Event) (low high : Number) (w : World) :
  Dataset (spacex_df (globals w)) = true →
  up_to_date (open_page low high w).1 w ∧
  up_to_date
    (browse evs (open_page low high w).1 (open_page low high w).2).1 w ∧
  globals
    (browse evs (open_page low high w).1 (open_page low high w).2).2
  = globals w.
Proof.
  intros Hd.
  destruct (open_page_up_to_date low high w Hd) as (Hw & Hsl & Hup).
  split; [done|].
  destruct (browse_up_to_date evs _ _ w Hd Hw Hsl Hup) as [Hg Hb].
  by split.
Qed.

Lemma page_up_to_date_witness :
  Dataset (spacex_df (globals sample_world)) = true ∧
  up_to_date
    (browse [SelectSite "KSC"; MoveSlider (PyInt 0) (PyInt 2600); SelectSite "ALL"]
       (open_page (PyFloat (kg 500)) (PyFloat (kg 3000)) sample_world).1
       (open_page (PyFloat (kg 500)) (PyFloat (kg 3000)) sample_world).2).1
    sample_world.
Proof.
  split; [reflexivity|].
  destruct (page_up_to_date
              [SelectSite "KSC"; MoveSlider (PyInt 0) (PyInt 2600); SelectSite "ALL"]
              (PyFloat (kg 500)) (PyFloat (kg 3000)) sample_world)
    as (_ & Hup & _);
    [reflexivity|].
  exact Hup.
Defined.

Example page_after_events :
  (λ p, (site_dropdown p, payload_slider p,
         (λ fig, rows (figure_data fig)) <$> success_payload_scatter_chart p))
    (browse [SelectSite "CCAFS"; MoveSlider (PyInt 1000) (PyInt 9000)]
       (open_page (PyFloat (kg 500)) (PyFloat (kg 3000)) sample_world).1
       (open_page (PyFloat (kg 500)) (PyFloat (kg 3000)) sample_world).2).1
  = ("CCAFS", [PyInt 1000; PyInt 9000],
     Some [mkRow (Some "CCAFS") (Some (kg 2500)) (Some 1%Z) (Some "v1")]).
Proof. reflexivity. Qed.
